(** * Audio environment lifecycle of the realtime transcriber

    Shallow embedding of [src/transcriber/audio_setup.py] (device
    classification, [AudioEnvironmentManager.prepare] / [cleanup],
    [collect_audio_diagnostics], [render_diagnostic_report]) and of
    [src/transcriber/cli.py] (the [pactl] helpers [_capture_linux_defaults],
    [_restore_linux_defaults], [_list_linux_devices],
    [_ensure_linux_physical_defaults], [_snapshot_linux_modules],
    [_unload_linux_modules], then [run_easy_start] and [list_audio_devices]).

    Device names are modelled as ASCII strings; Python's [str.lower] is
    modelled by ASCII lower-casing. *)

From Stdlib Require Import ZArith List Bool String Ascii.
From stdpp Require Import base strings gmap sets list.

Local Open Scope Z_scope.

(* ------------------------------------------------------------------ *)
(** ** Python string helpers *)

(** [str.lower] on ASCII characters. *)
Definition lower_ascii (c : ascii) : ascii :=
  let n := nat_of_ascii c in
  if (Nat.leb 65 n && Nat.leb n 90)%bool then ascii_of_nat (n + 32) else c.

Fixpoint lower (s : string) : string :=
  match s with
  | EmptyString => EmptyString
  | String c s' => String (lower_ascii c) (lower s')
  end.

(** Python's [needle in hay] for strings (substring test). *)
Fixpoint contains (needle hay : string) : bool :=
  String.prefix needle hay ||
  match hay with
  | EmptyString => false
  | String _ hay' => contains needle hay'
  end.

(** Truthiness of an [Optional[str]]: [None] and [""] are false. *)
Definition truthy (o : option string) : bool :=
  match o with
  | Some s => negb (String.eqb s "")
  | None => false
  end.

Definition string_in (s : string) (l : list string) : bool :=
  existsb (String.eqb s) l.

(* ------------------------------------------------------------------ *)
(** ** Data model *)

(** A PortAudio device entry as returned by [sd.query_devices()]; only the
    keys read by the modelled code ([name], [max_input_channels]). *)
Record device := mk_device {
  name : string;
  max_input_channels : Z
}.

Definition device_eqb (d1 d2 : device) : bool :=
  String.eqb (name d1) (name d2) && Z.eqb (max_input_channels d1) (max_input_channels d2).

Inductive AudioCaptureMode := AUTO | MICROPHONE | LOOPBACK | API.

Record AudioInputConfig := mk_config {
  device_index : option Z;
  mode : AudioCaptureMode;
  auto_setup_loopback : bool;
  linux_loopback_sink : option string
}.

(** [AudioDeviceSummary] (host API, output count and sample rate are not
    read by any of the modelled decisions and are left out). *)
Record AudioDeviceSummary := mk_summary {
  index : nat;
  sname : string;
  inputs : Z
}.

(** [resolve_capture_mode]; [system] is [platform.system()]. *)
Definition resolve_capture_mode (config : AudioInputConfig) (system : string) : AudioCaptureMode :=
  match mode config with
  | AUTO =>
      if string_in (lower system) ["linux"; "windows"; "darwin"]%string
      then LOOPBACK else MICROPHONE
  | m => m
  end.

(** The [sink_hint] computed identically by [_detect_loopback_candidate]
    and [collect_audio_diagnostics]; [platform] is already lower-cased. *)
Definition sink_hint (platform : string) (config : AudioInputConfig) : option string :=
  if (String.eqb platform "linux" && truthy (linux_loopback_sink config))%bool
  then option_map lower (linux_loopback_sink config)
  else None.

(* ------------------------------------------------------------------ *)
(** ** [_detect_loopback_candidate]: short-circuit existence check *)

(** The loop body over [enumerate(devices)]; [keyword_set] is already
    lower-cased. *)
Fixpoint detect_loop (platform : string) (keyword_set : list string)
    (hint : option string) (devices : list device) : bool :=
  match devices with
  | [] => false
  | device :: rest =>
      let ins := max_input_channels device in
      if ins <=? 0 then detect_loop platform keyword_set hint rest
      else
        let nm := lower (name device) in
        let is_candidate := existsb (fun keyword => contains keyword nm) keyword_set in
        let is_candidate :=
          if String.eqb platform "linux" then
            let is_candidate :=
              if (negb is_candidate && truthy hint
                  && contains (default ""%string hint) nm)%bool
              then true else is_candidate in
            if (negb is_candidate && string_in nm ["pipewire"; "default"]%string
                && (2 <=? ins))%bool
            then true else is_candidate
          else if String.eqb platform "windows" then
            if (negb is_candidate && contains "loopback" nm && contains "wasapi" nm)%bool
            then true else is_candidate
          else if String.eqb platform "darwin" then
            if (negb is_candidate && contains "blackhole" nm)%bool
            then true else is_candidate
          else is_candidate in
        if is_candidate then true
        else detect_loop platform keyword_set hint rest
  end.

Definition detect_loopback_candidate (platform : string) (config : AudioInputConfig)
    (keywords : list string) (devices : list device) : bool :=
  detect_loop platform (map lower keywords) (sink_hint platform config) devices.

(* ------------------------------------------------------------------ *)
(** ** [collect_audio_diagnostics]: exhaustive collection *)

(** [_summarise_devices]. *)
Fixpoint summarise_from (idx : nat) (devices : list device) : list AudioDeviceSummary :=
  match devices with
  | [] => []
  | d :: ds => mk_summary idx (name d) (max_input_channels d) :: summarise_from (S idx) ds
  end.

Definition summarise_devices (devices : list device) : list AudioDeviceSummary :=
  summarise_from 0 devices.

(** [[summaries[idx] for idx, dev in enumerate(devices) if dev in input_devices]]. *)
Fixpoint select_inputs (input_devices : list device)
    (summaries : list AudioDeviceSummary) (devices : list device) : list AudioDeviceSummary :=
  match summaries, devices with
  | s :: ss, d :: ds =>
      if existsb (device_eqb d) input_devices
      then s :: select_inputs input_devices ss ds
      else select_inputs input_devices ss ds
  | _, _ => []
  end.

Definition loopback_keywords (platform_key : string) : list string :=
  if String.eqb platform_key "linux" then ["monitor"; "loopback"]%string
  else if String.eqb platform_key "windows" then
    ["loopback"; "stereo mix"; "cable output"; "cable input"; "virtual"]%string
  else if String.eqb platform_key "darwin" then
    ["blackhole"; "loopback"; "soundflower"; "aggregate"; "multi-output"]%string
  else [].

(** The classification of one input summary inside the collection loop. *)
Definition collect_is_candidate (platform_key : string) (keyword_set : list string)
    (hint : option string) (summary : AudioDeviceSummary) : bool :=
  let lowered := lower (sname summary) in
  let is_candidate := existsb (fun keyword => contains keyword lowered) keyword_set in
  if String.eqb platform_key "linux" then
    let is_candidate :=
      if (negb is_candidate && truthy hint && contains (default ""%string hint) lowered)%bool
      then true else is_candidate in
    if (negb is_candidate && string_in lowered ["pipewire"; "default"]%string
        && (2 <=? inputs summary))%bool
    then true else is_candidate
  else if String.eqb platform_key "windows" then
    if (negb is_candidate && contains "loopback" lowered && contains "wasapi" lowered)%bool
    then true else is_candidate
  else if String.eqb platform_key "darwin" then
    if (negb is_candidate && contains "blackhole" lowered)%bool
    then true else is_candidate
  else is_candidate.

Definition input_summaries_of (devices : list device) : list AudioDeviceSummary :=
  let input_devices := List.filter (fun dev => 0 <? max_input_channels dev) devices in
  select_inputs input_devices (summarise_devices devices) devices.

Definition collect_candidates (platform_key : string) (config : AudioInputConfig)
    (devices : list device) : list AudioDeviceSummary :=
  let keyword_set := map lower (loopback_keywords platform_key) in
  let hint := sink_hint platform_key config in
  List.filter (collect_is_candidate platform_key keyword_set hint) (input_summaries_of devices).

(** [not xs] for a Python list. *)
Definition list_empty {A} (l : list A) : bool :=
  match l with [] => true | _ => false end.

(** [", ".join(...)]. *)
Fixpoint join_comma (l : list string) : string :=
  match l with
  | [] => ""
  | [x] => x
  | x :: rest => (x ++ ", " ++ join_comma rest)%string
  end.

Definition msg_no_input : string :=
  "入力デバイスが見つかりませんでした。サウンド設定を確認してください。".
Definition msg_no_loopback : string :=
  "ループバック入力候補が検出できませんでした。仮想デバイスやモニターを準備してください。".
Definition rec_pin_index : string :=
  "AUDIO_DEVICE_INDEX を設定するとデバイス切り替えの影響を受けにくくなります。".
Definition rec_check_index : string :=
  "現在の AUDIO_DEVICE_INDEX がループバック経路を指しているかオーディオ設定で確認してください。".
Definition rec_candidates_prefix : string := "ループバック候補: ".

Record AudioDiagnosticReport := mk_report {
  r_platform : string;
  r_mode : AudioCaptureMode;
  r_input_devices : list AudioDeviceSummary;
  r_loopback_candidates : list AudioDeviceSummary;
  r_configured_device : option AudioDeviceSummary;
  r_issues : list string;
  r_recommendations : list string
}.

Definition is_loopback (m : AudioCaptureMode) : bool :=
  match m with LOOPBACK => true | _ => false end.

(** [collect_audio_diagnostics], given the successful result of
    [sd.query_devices()]; [system] is [platform.system()]. *)
Definition collect_audio_diagnostics (config : AudioInputConfig) (system : string)
    (devices : list device) : AudioDiagnosticReport :=
  let summaries := summarise_devices devices in
  let input_summaries := input_summaries_of devices in
  let platform_key := lower system in
  let loopback_candidates := collect_candidates platform_key config devices in
  let configured_device :=
    match device_index config with
    | Some i => if ((0 <=? i) && (i <? Z.of_nat (length summaries)))%bool
                then nth_error summaries (Z.to_nat i) else None
    | None => None
    end in
  let effective_mode := resolve_capture_mode config system in
  let issues := if list_empty input_summaries then [msg_no_input] else [] in
  let recommendations :=
    if (negb (bool_decide (is_Some (device_index config))) && negb (list_empty input_summaries))%bool
    then [rec_pin_index] else [] in
  let '(issues, recommendations) :=
    if (is_loopback effective_mode && list_empty loopback_candidates)%bool then
      match device_index config with
      | None => (issues ++ [msg_no_loopback], recommendations)
      | Some _ => (issues, recommendations ++ [rec_check_index])
      end
    else (issues, recommendations) in
  let recommendations :=
    if (is_loopback effective_mode && negb (list_empty loopback_candidates))%bool then
      recommendations ++
        [(rec_candidates_prefix ++ join_comma (map sname (firstn 3 loopback_candidates)))%string]
    else recommendations in
  mk_report system effective_mode input_summaries loopback_candidates
    configured_device issues recommendations.

(* ------------------------------------------------------------------ *)
(** ** [AudioEnvironmentManager]: state and error monad *)

(** The kinds of [AudioEnvironmentError] raised by the manager:
    - [EnumerationFailure]: "Failed to enumerate audio devices: ...";
    - [DeviceUnavailable]: "No audio devices detected by PortAudio.",
      "Configured AUDIO_DEVICE_INDEX ... is outside the available range",
      "Configured device ... has no input channels.",
      "No input-capable audio devices detected.";
    - [LoopbackSetupFailure]: "Failed to initialise PipeWire virtual loopback";
    - [NoLoopbackDetected]: "Loopback auto-setup flag set but no monitor
      source detected.", "No loopback-capable input detected after setup.",
      and the Windows and macOS counterparts. *)
Inductive AudioEnvironmentError :=
| EnumerationFailure
| DeviceUnavailable
| LoopbackSetupFailure
| NoLoopbackDetected.

(** The cleanup actions registered by [prepare]: the [restore] closure of
    [_register_linux_defaults_restore], with its captured sink and source. *)
Inductive rollback := RestoreDefaults (sink source : option string).

(** Observable effects of the manager, in order.  [EvRunScript] is the only
    one that changes the system (the helper script changes routing and the
    defaults); the others are queries or log lines. *)
Inductive event :=
| EvQueryDevices               (* sd.query_devices() *)
| EvDetect                     (* a call of _detect_loopback_candidate *)
| EvPactlInfo                  (* pactl info, in _get_linux_defaults *)
| EvRunScript (hint : option string)  (* a platform helper script; HEADPHONE_SINK passed *)
| EvWarn                       (* logging.warning *)
| EvInfo.                      (* logging.info *)

Definition is_mutation (e : event) : bool :=
  match e with EvRunScript _ => true | _ => false end.

(** The external world read by [prepare]. *)
Record world := mk_world {
  w_system : string;                 (* platform.system() *)
  w_pactl : bool;                    (* shutil.which("pactl") is truthy *)
  w_powershell : bool;               (* shutil.which("powershell") is truthy *)
  w_environ : gmap string string;    (* os.environ *)
  w_linux_defaults : option (option string * option string);
                                     (* result of _get_linux_defaults() *)
  w_script_exists : bool;            (* the platform helper script is a file *)
  w_script_ok : bool;                (* the helper script exits with status 0 *)
  w_devices_after_script : option (list device)
                                     (* sd.query_devices() after the script ran *)
}.

(** The mutable part: the device list the next [sd.query_devices()] returns
    ([None]: the query raises), the [_cleanup_actions] list, and the trace. *)
Record mstate := mk_mstate {
  ms_devices : option (list device);
  ms_actions : list rollback;
  ms_log : list event
}.

Definition M (A : Type) : Type := mstate -> (AudioEnvironmentError + A) * mstate.

Definition ret {A} (a : A) : M A := fun s => (inr a, s).
Definition raise {A} (e : AudioEnvironmentError) : M A := fun s => (inl e, s).
Definition bind {A B} (m : M A) (k : A -> M B) : M B :=
  fun s => match m s with
           | (inl e, s') => (inl e, s')
           | (inr a, s') => k a s'
           end.

Notation "'let!' x ':=' m 'in' k" := (bind m (fun x => k))
  (at level 200, x name, m at level 100, k at level 200).

Definition emit (e : event) : M unit :=
  fun s => (inr tt, mk_mstate (ms_devices s) (ms_actions s) (ms_log s ++ [e])).

Definition query_devices : M (list device) :=
  let! _ := emit EvQueryDevices in
  fun s => match ms_devices s with
           | Some ds => (inr ds, s)
           | None => (inl EnumerationFailure, s)
           end.

Definition clear_actions : M unit :=
  fun s => (inr tt, mk_mstate (ms_devices s) [] (ms_log s)).

(** [self._cleanup_actions.append(restore)]. *)
Definition register (r : rollback) : M unit :=
  fun s => (inr tt, mk_mstate (ms_devices s) (ms_actions s ++ [r]) (ms_log s)).

(** [subprocess.run([...script], check=True)]: the script changes the device
    set; a non-zero exit raises [CalledProcessError] ([false]). *)
Definition run_script (w : world) (hint : option string) : M bool :=
  fun s => (inr (w_script_ok w),
            mk_mstate (w_devices_after_script w) (ms_actions s) (ms_log s ++ [EvRunScript hint])).

Definition when_ (b : bool) (m : M unit) : M unit := if b then m else ret tt.

(** A call of [self._detect_loopback_candidate(keywords)], which queries
    the devices afresh. *)
Definition detect (w : world) (config : AudioInputConfig) (keywords : list string) : M bool :=
  let! _ := emit EvDetect in
  fun s => match ms_devices s with
           | Some ds => (inr (detect_loopback_candidate (lower (w_system w)) config keywords ds), s)
           | None => (inl EnumerationFailure, s)
           end.

(** [_ensure_device_presence]. *)
Definition ensure_device_presence (config : AudioInputConfig) : M unit :=
  let! devices := query_devices in
  if list_empty devices then raise DeviceUnavailable else
  match device_index config with
  | Some idx =>
      if ((idx <? 0) || (Z.of_nat (length devices) <=? idx))%bool then raise DeviceUnavailable
      else match nth_error devices (Z.to_nat idx) with
           | Some device => if max_input_channels device <=? 0 then raise DeviceUnavailable
                            else ret tt
           | None => ret tt
           end
  | None =>
      if negb (existsb (fun dev => 0 <? max_input_channels dev) devices)
      then raise DeviceUnavailable else ret tt
  end.

Definition linux_keywords : list string := ["monitor"; "loopback"]%string.
Definition windows_keywords : list string :=
  ["loopback"; "stereo mix"; "cable output"; "cable input"; "virtual"]%string.
Definition macos_keywords : list string :=
  ["blackhole"; "loopback"; "soundflower"; "aggregate"; "multi-output"]%string.

(** [_prepare_linux_loopback]. *)
Definition prepare_linux_loopback (config : AudioInputConfig) (w : world) : M unit :=
  if negb (w_pactl w) then emit EvWarn else
  if bool_decide (w_environ w !! "AUDIO_LOOPBACK_ALREADY_SET"%string = Some "1"%string) then
    match device_index config with
    | None =>
        let! found := detect w config linux_keywords in
        if found then ret tt else raise NoLoopbackDetected
    | Some _ => ret tt
    end
  else
    let! _ := when_ (auto_setup_loopback config) (
      let! _ := emit EvPactlInfo in
      let! _ := match w_linux_defaults w with
                | Some (sink, source) => register (RestoreDefaults sink source)
                | None => ret tt
                end in
      if w_script_exists w then
        (* env = os.environ.copy(); env["HEADPHONE_SINK"] = sink if truthy *)
        let hint := if truthy (linux_loopback_sink config) then linux_loopback_sink config
                    else w_environ w !! "HEADPHONE_SINK"%string in
        let! ok := run_script w hint in
        if ok then ret tt else raise LoopbackSetupFailure
      else ret tt) in
    let! found := detect w config linux_keywords in
    if found then ret tt else
    match device_index config with
    | None => raise NoLoopbackDetected
    | Some _ => ret tt
    end.

(** [_prepare_windows_loopback]; a failing helper is only logged. *)
Definition prepare_windows_loopback (config : AudioInputConfig) (w : world) : M unit :=
  let! _ := when_ (auto_setup_loopback config) (
    if (w_script_exists w && w_powershell w)%bool then
      let! ok := run_script w None in
      if ok then ret tt else emit EvWarn
    else ret tt) in
  match device_index config with
  | None =>
      let! found := detect w config windows_keywords in
      if found then ret tt else raise NoLoopbackDetected
  | Some _ => ret tt
  end.

(** [_prepare_macos_loopback]; a failing helper is only logged. *)
Definition prepare_macos_loopback (config : AudioInputConfig) (w : world) : M unit :=
  let! _ := when_ (auto_setup_loopback config) (
    if w_script_exists w then
      let! ok := run_script w None in
      if ok then ret tt else emit EvWarn
    else ret tt) in
  match device_index config with
  | None =>
      let! found := detect w config macos_keywords in
      if found then ret tt else raise NoLoopbackDetected
  | Some _ => ret tt
  end.

(** [_prepare_loopback]. *)
Definition prepare_loopback (config : AudioInputConfig) (w : world) : M unit :=
  let platform := lower (w_system w) in
  if String.eqb platform "linux" then prepare_linux_loopback config w
  else if String.eqb platform "windows" then prepare_windows_loopback config w
  else if String.eqb platform "darwin" then prepare_macos_loopback config w
  else emit EvWarn.

(** [AudioEnvironmentManager.prepare]. *)
Definition prepare (config : AudioInputConfig) (w : world) : M unit :=
  let md := resolve_capture_mode config (w_system w) in
  let! _ := clear_actions in
  let! _ := ensure_device_presence config in
  match md with
  | MICROPHONE => ret tt
  | API => emit EvInfo
  | LOOPBACK => prepare_loopback config w
  | AUTO => ret tt
  end.

Definition sample_world : world :=
  mk_world "Linux" true false ∅ (Some (Some "alsa_output.pci"%string, None))
    true true (Some [mk_device "Mic" 1; mk_device "Monitor of codex_transcribe" 2]).

(* ------------------------------------------------------------------ *)
(** ** [AudioEnvironmentManager.cleanup] *)

Section Cleanup.
(** The rollback actions are opaque zero-argument closures: [run_action a s]
    runs [a] against the outside state [s] and returns [Some msg] when it
    raised an [Exception] (after whatever effects it performed). *)
Context {S A : Type}.
Variable run_action : A -> S -> option string * S.

(** The message [logging.warning] writes for a failed action. *)
Definition cleanup_warning (r : option string) : list string :=
  match r with
  | Some msg => [("Audio environment cleanup failed: " ++ msg)%string]
  | None => []
  end.

(** Python's [list.pop()]: removes and returns the last element. *)
Definition pop (l : list A) : option (A * list A) :=
  match rev l with
  | [] => None
  | a :: r => Some (a, rev r)
  end.

(** [while self._cleanup_actions: action = pop(); try action() except: log].
    Each iteration shortens the list, so [length actions] iterations
    suffice. *)
Fixpoint cleanup_loop (fuel : nat) (actions : list A) (s : S) (warnings : list string)
    : list A * S * list string :=
  match fuel with
  | O => (actions, s, warnings)
  | Datatypes.S n =>
      match pop actions with
      | None => (actions, s, warnings)
      | Some (action, rest) =>
          let '(r, s') := run_action action s in
          cleanup_loop n rest s' (warnings ++ cleanup_warning r)
      end
  end.

Definition cleanup (actions : list A) (s : S) (warnings : list string)
    : list A * S * list string :=
  cleanup_loop (length actions) actions s warnings.

(** The specification's runner: every action of [l] in the order of [l],
    each failure logged, none stopping the run. *)
Fixpoint run_each (l : list A) (s : S) (warnings : list string) : S * list string :=
  match l with
  | [] => (s, warnings)
  | a :: l' =>
      let '(r, s') := run_action a s in
      run_each l' s' (warnings ++ cleanup_warning r)
  end.
End Cleanup.

(* ------------------------------------------------------------------ *)
(** ** Linux module snapshots and the launch phase of [run_easy_start] *)

(** [Dict[str, Set[str]]] with the keys ["null"] and ["loop"]. *)
Record module_snapshot := mk_modules {
  null : gset string;
  loop : gset string
}.

(** The audio-server commands issued by [cli.py]. *)
Inductive sys_call :=
| PactlSetDefaultSink (sink : string)
| PactlSetDefaultSource (source : string)
| PactlUnloadModule (module_id : string)
| EnsurePhysicalDefaults.      (* a call of _ensure_linux_physical_defaults() *)

Inductive outcome := Completed | Raised | Cancelled.

Definition HEADPHONE_SINK : string := "HEADPHONE_SINK".
Definition AUDIO_LOOPBACK_ALREADY_SET : string := "AUDIO_LOOPBACK_ALREADY_SET".

(** [_restore_linux_defaults]. *)
Definition restore_linux_defaults (defaults : option (option string * option string))
    : list sys_call :=
  match defaults with
  | None => []
  | Some (sink, source) =>
      (if truthy sink then [PactlSetDefaultSink (default ""%string sink)] else []) ++
      (if truthy source then [PactlSetDefaultSource (default ""%string source)] else [])
  end.

(** The module diff of [run_easy_start] (lines 244-245 and 254-255). *)
Definition diff_modules (before after : module_snapshot) : module_snapshot :=
  mk_modules (null after ∖ null before) (loop after ∖ loop before).

(** The hints set before the pipeline run (lines 267-274): the previous
    values of the two variables and the environment the run sees. *)
Definition set_run_hints (system : string)
    (defaults_before_script : option (option string * option string))
    (environ : gmap string string)
    : option string * option string * gmap string string :=
  if String.eqb system "linux" then
    let '(headphone_env_previous, environ) :=
      match defaults_before_script with
      | Some (sink_hint, _) =>
          if truthy sink_hint
          then (environ !! HEADPHONE_SINK, <[HEADPHONE_SINK := default ""%string sink_hint]> environ)
          else (None, environ)
      | None => (None, environ)
      end in
    (headphone_env_previous, environ !! AUDIO_LOOPBACK_ALREADY_SET,
     <[AUDIO_LOOPBACK_ALREADY_SET := "1"%string]> environ)
  else (None, None, environ).

(** Restoring a variable in the [finally] block (lines 280-287). *)
Definition restore_var (k : string) (previous : option string) (environ : gmap string string)
    : gmap string string :=
  match previous with
  | Some v => <[k := v]> environ
  | None => delete k environ
  end.

Section ModuleSets.
(** Iteration order of a Python [set]: left open; the properties assume
    only that it enumerates the elements of the set, each exactly once. *)
Variable set_iter : gset string -> list string.

(** [_unload_linux_modules]: the ["loop"] set first, then ["null"]. *)
Definition unload_linux_modules (modules : module_snapshot) : list sys_call :=
  map PactlUnloadModule (set_iter (loop modules)) ++
  map PactlUnloadModule (set_iter (null modules)).

(** The diff-and-unload step: [modules_to_unload] computed from the two
    snapshots, then [_unload_linux_modules(modules_to_unload)]. *)
Definition diff_and_unload (before after : module_snapshot) : list sys_call :=
  unload_linux_modules (diff_modules before after).

(** Lines 262-299 of [run_easy_start]: [system] is the lower-cased
    platform name, [start] the stripped lower-cased answer, [pipeline] the
    run of [asyncio.run(run_pipeline(...))] (it may change the environment,
    complete, raise or end by cancellation).  Returns the final
    environment, the pipeline outcome when it was launched, and the
    audio-server commands issued. *)
Definition launch_phase (system : string)
    (defaults_before_script : option (option string * option string))
    (modules_to_unload : module_snapshot) (start : string)
    (pipeline : gmap string string -> gmap string string * outcome)
    (environ : gmap string string)
    : gmap string string * option outcome * list sys_call :=
  let is_linux := String.eqb system "linux" in
  if string_in start [""; "y"; "yes"]%string then
    let '(headphone_env_previous, loopback_flag_previous, environ) :=
      set_run_hints system defaults_before_script environ in
    let '(environ, oc) := pipeline environ in
    (* finally: *)
    let calls := restore_linux_defaults defaults_before_script in
    if is_linux then
      let environ := restore_var HEADPHONE_SINK headphone_env_previous environ in
      let environ := restore_var AUDIO_LOOPBACK_ALREADY_SET loopback_flag_previous environ in
      (environ, Some oc, calls ++ unload_linux_modules modules_to_unload ++ [EnsurePhysicalDefaults])
    else (environ, Some oc, calls)
  else
    let calls := restore_linux_defaults defaults_before_script in
    if is_linux then
      let environ := delete AUDIO_LOOPBACK_ALREADY_SET environ in
      let environ := delete HEADPHONE_SINK environ in
      (environ, None, calls ++ unload_linux_modules modules_to_unload ++ [EnsurePhysicalDefaults])
    else (environ, None, calls).
End ModuleSets.

(* ------------------------------------------------------------------ *)
(** ** Text processing of [cli.py] and [run_easy_start] *)

(** Python text is modelled by its UTF-8 encoding; the byte predicates
    below recognise the encodings of the characters Python treats as line
    boundaries ([str.splitlines]) and as whitespace ([str.isspace]). *)
Definition byte (c : ascii) : nat := nat_of_ascii c.

(** One-byte line boundaries: \n \v \f \r \x1c \x1d \x1e. *)
Definition break1 (c : ascii) : bool :=
  let n := byte c in
  ((n =? 10) || (n =? 11) || (n =? 12) || (n =? 13) || (n =? 28) || (n =? 29) || (n =? 30))%nat.
(** U+0085. *)
Definition break2 (a b : ascii) : bool := ((byte a =? 194) && (byte b =? 133))%nat.
(** U+2028 and U+2029. *)
Definition break3 (a b c : ascii) : bool :=
  ((byte a =? 226) && (byte b =? 128) && ((byte c =? 168) || (byte c =? 169)))%nat.

(** [str.splitlines()]: [cur] is the line read so far; "\r\n" is one
    boundary; a last line without a boundary is kept when non-empty. *)
Fixpoint splitlines_go (s cur : string) : list string :=
  match s with
  | EmptyString => if String.eqb cur "" then [] else [cur]
  | String c rest =>
      if (byte c =? 13)%nat then
        match rest with
        | String c2 rest2 =>
            if (byte c2 =? 10)%nat then cur :: splitlines_go rest2 ""
            else cur :: splitlines_go rest ""
        | EmptyString => cur :: splitlines_go rest ""
        end
      else if break1 c then cur :: splitlines_go rest ""
      else match rest with
           | String c2 rest2 =>
               if break2 c c2 then cur :: splitlines_go rest2 ""
               else match rest2 with
                    | String c3 rest3 =>
                        if break3 c c2 c3 then cur :: splitlines_go rest3 ""
                        else splitlines_go rest (cur ++ String c "")
                    | EmptyString => splitlines_go rest (cur ++ String c "")
                    end
           | EmptyString => splitlines_go rest (cur ++ String c "")
           end
  end.

Definition splitlines (s : string) : list string := splitlines_go s "".

(** One-byte whitespace: \t \n \v \f \r \x1c-\x1f and the space. *)
Definition ws1 (c : ascii) : bool :=
  let n := byte c in ((9 <=? n) && (n <=? 13) || (28 <=? n) && (n <=? 32))%nat.
(** U+0085, U+00A0. *)
Definition ws2 (a b : ascii) : bool :=
  ((byte a =? 194) && ((byte b =? 133) || (byte b =? 160)))%nat.
(** U+1680, U+2000-U+200A, U+2028, U+2029, U+202F, U+205F, U+3000. *)
Definition ws3 (a b c : ascii) : bool :=
  let a := byte a in let b := byte b in let c := byte c in
  ((a =? 225) && (b =? 154) && (c =? 128) ||
   (a =? 226) && ((b =? 128) && ((128 <=? c) && (c <=? 138) || (c =? 168) || (c =? 169) ||
                                 (c =? 175)) ||
                  (b =? 129) && (c =? 159)) ||
   (a =? 227) && (b =? 128) && (c =? 128))%nat.

(** [str.lstrip()]. *)
Fixpoint lstrip (s : string) : string :=
  match s with
  | EmptyString => EmptyString
  | String c rest =>
      if ws1 c then lstrip rest
      else match rest with
           | String c2 rest2 =>
               if ws2 c c2 then lstrip rest2
               else match rest2 with
                    | String c3 rest3 => if ws3 c c2 c3 then lstrip rest3 else s
                    | EmptyString => s
                    end
           | EmptyString => s
           end
  end.

(** [lstrip] on the reversed bytes: a whitespace character read backwards. *)
Fixpoint lstrip_rev (s : string) : string :=
  match s with
  | EmptyString => EmptyString
  | String c rest =>
      if ws1 c then lstrip_rev rest
      else match rest with
           | String c2 rest2 =>
               if ws2 c2 c then lstrip_rev rest2
               else match rest2 with
                    | String c3 rest3 => if ws3 c3 c2 c then lstrip_rev rest3 else s
                    | EmptyString => s
                    end
           | EmptyString => s
           end
  end.

Definition srev (s : string) : string := string_of_list_ascii (rev (list_ascii_of_string s)).

(** [str.rstrip()] and [str.strip()]. *)
Definition rstrip (s : string) : string := srev (lstrip_rev (srev s)).
Definition strip (s : string) : string := rstrip (lstrip s).

(** [line.split(":", 1)[1]]: the text after the first colon. *)
Fixpoint after_colon (s : string) : option string :=
  match s with
  | EmptyString => None
  | String c rest => if Ascii.eqb c ":" then Some rest else after_colon rest
  end.

(** [line.split("\t")]. *)
Definition TAB : ascii := ascii_of_nat 9.
Fixpoint split_tab_go (s cur : string) : list string :=
  match s with
  | EmptyString => [cur]
  | String c rest =>
      if Ascii.eqb c TAB then cur :: split_tab_go rest ""
      else split_tab_go rest (cur ++ String c "")
  end.
Definition split_tab (s : string) : list string := split_tab_go s "".

(** [x or None] for a string [x]. *)
Definition or_none (x : string) : option string := if String.eqb x "" then None else Some x.

(** The value of a "Default Sink:" or "Default Source:" line; the line
    starts with a prefix holding a colon, so [after_colon] never fails
    there. *)
Definition default_value (line : string) : option string :=
  or_none (strip (default ""%string (after_colon line))).

(** The loop over [output.splitlines()] shared by [_capture_linux_defaults],
    [AudioEnvironmentManager._get_linux_defaults] and
    [_ensure_linux_physical_defaults]. *)
Definition scan_defaults (output : string) : option string * option string :=
  fold_left (fun acc line =>
    let '(sink, source) := acc in
    if String.prefix "Default Sink:" line then (default_value line, source)
    else if String.prefix "Default Source:" line then (sink, default_value line)
    else (sink, source)) (splitlines output) (None, None).

(** [_capture_linux_defaults] and [_get_linux_defaults]: [output] is the
    text of [pactl info], [None] when the command fails. *)
Definition capture_linux_defaults (output : option string)
    : option (option string * option string) :=
  match output with
  | None => None
  | Some out =>
      let '(sink, source) := scan_defaults out in
      if (truthy sink || truthy source)%bool then Some (sink, source) else None
  end.

(** [_list_linux_devices(kind)]: [output] is the text of
    [pactl list short <kind>], [None] when the command fails. *)
Definition list_linux_devices (output : option string) : list string :=
  match output with
  | None => []
  | Some out =>
      flat_map (fun line => match split_tab line with
                            | _ :: name :: _ => [strip name]
                            | _ => []
                            end) (splitlines out)
  end.

(** [str.endswith]. *)
Definition endswith (suffix s : string) : bool := String.prefix (srev suffix) (srev s).

(** [_ensure_linux_physical_defaults]: the [pactl info] text and the
    outputs of the two listings; the commands it issues. *)
Definition ensure_linux_physical_defaults (info : option string)
    (sinks_output sources_output : option string) : list sys_call :=
  match info with
  | None => []
  | Some out =>
      let '(current_sink, current_source) := scan_defaults out in
      let sinks := list_linux_devices sinks_output in
      let sources := list_linux_devices sources_output in
      let physical_sinks :=
        List.filter (fun n => negb (contains "codex_transcribe" n)) sinks in
      let physical_sources :=
        List.filter (fun n => negb (contains ".monitor" n) && negb (contains "codex_transcribe" n))%bool
          sources in
      (match current_sink, physical_sinks with
       | Some cs, p :: _ =>
           if (negb (String.eqb cs "") && contains "codex_transcribe" cs)%bool
           then [PactlSetDefaultSink p] else []
       | _, _ => []
       end) ++
      (match current_source with
       | Some cs =>
           if (negb (String.eqb cs "") &&
               (contains "codex_transcribe" cs || endswith ".monitor" cs))%bool
           then match physical_sources with
                | p :: _ => [PactlSetDefaultSource p]
                | [] => []
                end
           else []
       | None => []
       end)
  end.

(** One line of the loop of [_snapshot_linux_modules]. *)
Definition snapshot_step (result : module_snapshot) (line : string) : module_snapshot :=
  match split_tab line with
  | f0 :: f1 :: _ =>
      let idx := strip f0 in
      let name := strip f1 in
      if String.eqb name "module-null-sink" then mk_modules ({[idx]} ∪ null result) (loop result)
      else if String.eqb name "module-loopback" then mk_modules (null result) ({[idx]} ∪ loop result)
      else result
  | _ => result
  end.

(** [_snapshot_linux_modules]: [output] is the text of
    [pactl list short modules], [None] when the command fails. *)
Definition snapshot_linux_modules (output : option string) : module_snapshot :=
  match output with
  | None => mk_modules ∅ ∅
  | Some out => fold_left snapshot_step (splitlines out) (mk_modules ∅ ∅)
  end.

(** The inputs of [run_easy_start] besides its arguments. *)
Record easy_start_env := mk_easy {
  es_ready : bool;                    (* run_environment_check() *)
  es_diagnostics_ok : bool;           (* run_cli_diagnostics raised no AudioEnvironmentError *)
  es_system : string;                 (* platform.system().lower() *)
  es_script_exists : bool;            (* script_path.exists() *)
  es_answer : string;                 (* the script prompt answer, stripped and lower-cased *)
  es_script_ok : bool;                (* subprocess.run(command, check=True) returned *)
  es_start : string;                  (* the start prompt answer, stripped and lower-cased *)
  es_pactl_info : option string;      (* pactl info before the script *)
  es_modules_before : option string;  (* pactl list short modules before the script *)
  es_modules_after : option string    (* pactl list short modules after the script *)
}.

(** What a run of [run_easy_start] does: its return value ([None] when the
    pipeline's exception propagates after the [finally] block), whether the
    helper script ran, the pipeline outcome when it was launched, the final
    environment and the audio-server commands issued. *)
Record easy_start_result := mk_result {
  er_returned : option bool;
  er_script_ran : bool;
  er_pipeline : option outcome;
  er_environ : gmap string string;
  er_calls : list sys_call
}.

Definition no_modules : module_snapshot := mk_modules ∅ ∅.

(** [run_easy_start] (lines 180-299), with [set_iter] the iteration order
    of Python sets.  The outcomes [es_ready], [es_diagnostics_ok],
    [es_script_ok] and the pipeline's are the only failures modelled; the
    model leaves out exceptions raised by [load_settings], by [input()]
    (EOFError, KeyboardInterrupt), by the checks other than
    AudioEnvironmentError, and a KeyboardInterrupt while the helper script
    runs (not caught by [except Exception]): each propagates out of the
    call and ends the run early. *)
Definition run_easy_start (set_iter : gset string -> list string) (e : easy_start_env)
    (interactive : bool) (pipeline : gmap string string -> gmap string string * outcome)
    (environ : gmap string string) : easy_start_result :=
  if negb (es_ready e) then mk_result (Some false) false None environ [] else
  if negb (es_diagnostics_ok e) then mk_result (Some false) false None environ [] else
  let system := es_system e in
  let is_linux := String.eqb system "linux" in
  let has_script := string_in system ["linux"; "darwin"; "windows"]%string in
  let defaults_before_script :=
    if is_linux then capture_linux_defaults (es_pactl_info e) else None in
  let modules_before_script :=
    if is_linux then Some (snapshot_linux_modules (es_modules_before e)) else None in
  if negb interactive then
    mk_result (Some true) false None environ
      (restore_linux_defaults defaults_before_script ++
       (if is_linux then [EnsurePhysicalDefaults] else []))
  else
  let launch defaults modules_to_unload script_ran :=
    let '(environ', oc, calls) :=
      launch_phase set_iter system defaults modules_to_unload (es_start e) pipeline environ in
    mk_result (match oc with Some Raised | Some Cancelled => None | _ => Some true end)
      script_ran oc environ' calls in
  if (has_script && es_script_exists e)%bool then
    if string_in (es_answer e) ["y"; "yes"]%string then
      let modules_to_unload :=
        if is_linux
        then diff_modules (default no_modules modules_before_script)
               (snapshot_linux_modules (es_modules_after e))
        else no_modules in
      if es_script_ok e then launch defaults_before_script modules_to_unload true
      else mk_result (Some false) true None environ
             (restore_linux_defaults defaults_before_script ++
              (if is_linux then unload_linux_modules set_iter modules_to_unload else []))
    else launch None no_modules false
  else launch defaults_before_script no_modules false.

Definition LF : ascii := ascii_of_nat 10.

(** A line without any line boundary, read as [splitlines_go] reads it. *)
Fixpoint line_free (s : string) : bool :=
  match s with
  | EmptyString => true
  | String c rest =>
      if ((byte c =? 13)%nat || break1 c)%bool then false
      else match rest with
           | String c2 rest2 =>
               negb (break2 c c2) &&
               match rest2 with
               | String c3 _ => negb (break3 c c2 c3)
               | EmptyString => true
               end && line_free rest
           | EmptyString => true
           end
  end.

(** Lines joined, each followed by "\n". *)
Definition join_lines (ls : list string) : string :=
  fold_right (fun l acc => (l ++ String LF acc)%string) ""%string ls.

Definition plain (c : ascii) : bool :=
  ((byte c <? 128)%nat && negb (break1 c))%bool.


(** The text of [pactl info]: other lines around the "Default Sink:" and
    "Default Source:" lines, whose values [sink_raw] and [source_raw] are
    printed as they come, before any stripping. *)
Definition pactl_info_text (pre : list string) (sink_raw : string) (mid : list string)
    (source_raw : string) (post : list string) : string :=
  join_lines (pre ++ ("Default Sink:" ++ sink_raw)%string :: mid ++
              ("Default Source:" ++ source_raw)%string :: post).

(** A module line of [pactl list short modules]: its index and module
    name, stripped, are the first two tab-separated fields. *)
Definition module_line (kind idx line : string) : Prop :=
  exists f0 f1 fs, split_tab line = f0 :: f1 :: fs /\ strip f0 = idx /\ strip f1 = kind.

(** A Linux run that accepts the helper script, which loads a null sink,
    and then declines the pipeline. *)
Definition sample_easy_start : easy_start_env :=
  mk_easy true true "linux" true "y" true "n"
    (Some (join_lines ["Default Sink: alsa_output.pci"; "Default Source: alsa_input.pci"]))
    (Some (join_lines [String "5" (String TAB "module-null-sink")]))
    (Some (join_lines [String "5" (String TAB "module-null-sink");
                       String "7" (String TAB "module-null-sink")])).

Definition completing_run (env : gmap string string) : gmap string string * outcome :=
  (env, Completed).

(* ------------------------------------------------------------------ *)
(** ** The restore closure and [render_diagnostic_report] *)

(** The rollback closure of [_register_linux_defaults_restore], as run by
    [cleanup]: [calls] are the audio-server commands issued so far.  Each
    [subprocess.run(..., check=False)] either runs [pactl] or, when it
    cannot be started, raises with [err]; the first raise ends the closure. *)
Definition run_restore (pactl_runs : bool) (err : string) (r : rollback)
    (calls : list sys_call) : option string * list sys_call :=
  let 'RestoreDefaults sink source := r in
  match restore_linux_defaults (Some (sink, source)) with
  | [] => (None, calls)
  | cmds => if pactl_runs then (None, calls ++ cmds) else (Some err, calls)
  end.

(** [str(n)] for a non-negative [int]: decimal digits, built from the
    least significant one; [fuel] bounds the number of digits. *)
Fixpoint decimal_go (fuel n : nat) (acc : string) : string :=
  match fuel with
  | O => acc
  | Datatypes.S f =>
      let acc := String (ascii_of_nat (48 + n mod 10)) acc in
      if (n <? 10)%nat then acc else decimal_go f (n / 10) acc
  end.
Definition str_nat (n : nat) : string := decimal_go (Datatypes.S n) n "".

(** [str(z)] for an [int]. *)
Definition str_int (z : Z) : string :=
  if z <? 0 then String "-" (str_nat (Z.to_nat (- z))) else str_nat (Z.to_nat z).

(** [format(s, ">3")]: right-aligned in a field of width 3. *)
Definition pad3 (s : string) : string :=
  (String.concat "" (repeat " "%string (3 - String.length s)) ++ s)%string.

(** ["\n".join(lines)]. *)
Fixpoint nl_join (ls : list string) : string :=
  match ls with
  | [] => ""
  | [x] => x
  | x :: rest => (x ++ String LF (nl_join rest))%string
  end.

Definition rule60 : string := String.concat "" (repeat "="%string 60).

Section Render.
(** [report.mode.value] ([AudioCaptureMode] is declared in [config.py]). *)
Variable mode_value : AudioCaptureMode -> string.
(** The end of an input-device line, ["{outputs}ch out | {hostapi}"]: the
    output count and host API are not part of the summary model. *)
Variable device_tail : AudioDeviceSummary -> string.

Definition device_line (d : AudioDeviceSummary) : string :=
  ("  #" ++ pad3 (str_nat (index d)) ++ ": " ++ sname d ++ " | " ++
   str_int (inputs d) ++ "ch in / " ++ device_tail d)%string.

Definition candidate_line (d : AudioDeviceSummary) : string :=
  ("  #" ++ pad3 (str_nat (index d)) ++ ": " ++ sname d)%string.

Definition bullet (x : string) : string := ("  - " ++ x)%string.

Definition docs_line : string :=
  "詳細なルーティング手順は docs/audio_loopback.md を参照してください。".

(** The [lines] list of [render_diagnostic_report]. *)
Definition render_lines (r : AudioDiagnosticReport) : list string :=
  [rule60; "  オーディオ診断レポート"; rule60;
   ("プラットフォーム: " ++ r_platform r)%string;
   ("キャプチャモード: " ++ mode_value (r_mode r))%string;
   ""; "[入力デバイス一覧]"] ++
  (if list_empty (r_input_devices r) then ["  (入力デバイスなし)"]
   else map device_line (r_input_devices r)) ++
  (match r_configured_device r with
   | Some d => [""; ("設定済みデバイス: #" ++ str_nat (index d) ++ " " ++ sname d)%string]
   | None => []
   end) ++
  [""; "[ループバック候補]"] ++
  (if list_empty (r_loopback_candidates r) then ["  (候補なし)"]
   else map candidate_line (r_loopback_candidates r)) ++
  (if list_empty (r_issues r) then []
   else [""; "[課題]"] ++ map bullet (r_issues r)) ++
  (if list_empty (r_recommendations r) then []
   else [""; "[推奨事項]"] ++ map bullet (r_recommendations r)) ++
  [""; docs_line].

Definition render_diagnostic_report (r : AudioDiagnosticReport) : string :=
  nl_join (render_lines r).
End Render.

(** [list_audio_devices] of [cli.py]. *)

(** An entry of [sd.query_devices()] as [list_audio_devices] reads it. *)
Record listed_device := mk_listed {
  ld_name : string;
  ld_inputs : Z;
  ld_outputs : Z;
  ld_hostapi : Z
}.

(** [format(s, "<7")]: left-aligned in a field of width 7. *)
Definition ljust7 (s : string) : string :=
  (s ++ String.concat "" (repeat " "%string (7 - String.length s)))%string.

(** ["/".join(parts)]. *)
Fixpoint join_slash (l : list string) : string :=
  match l with
  | [] => ""
  | [x] => x
  | x :: rest => (x ++ "/" ++ join_slash rest)%string
  end.

Definition io_type (d : listed_device) : list string :=
  (if ld_inputs d =? 0 then [] else ["IN"%string]) ++
  (if ld_outputs d =? 0 then [] else ["OUT"%string]).

Definition listing_line (index : nat) (d : listed_device) : string :=
  (pad3 (str_nat index) ++ ": " ++ ljust7 (join_slash (io_type d)) ++ " " ++
   ld_name d ++ "  (" ++ str_int (ld_hostapi d) ++ ")")%string.

Fixpoint listing_from (index : nat) (devices : list listed_device) : list string :=
  match devices with
  | [] => []
  | d :: rest => listing_line index d :: listing_from (Datatypes.S index) rest
  end.

(** The lines [list_audio_devices] prints. *)
Definition list_audio_devices (devices : list listed_device) : list string :=
  listing_from 0 devices.

(* ------------------------------------------------------------------ *)
(** ** Reference rules and sample inputs *)

(** The Linux rule as the code applies it: on the lower-cased name, a
    keyword occurs, or a non-empty sink hint occurs as a substring, or the
    name is "pipewire" or "default" with at least two input channels. *)
Definition linux_candidate_rule (config : AudioInputConfig) (nm : string) (ins : Z) : bool :=
  let n := lower nm in
  contains "monitor" n || contains "loopback" n ||
  (truthy (linux_loopback_sink config) &&
   contains (lower (default ""%string (linux_loopback_sink config))) n) ||
  ((String.eqb n "pipewire" || String.eqb n "default") && (2 <=? ins)).

(** The Linux rule in the words of the claim: the name must equal the
    sink hint (ignoring case). *)
Definition linux_candidate_claimed (config : AudioInputConfig) (nm : string) (ins : Z) : bool :=
  let n := lower nm in
  contains "monitor" n || contains "loopback" n ||
  (match linux_loopback_sink config with
   | Some h => String.eqb n (lower h)
   | None => false
   end) ||
  ((String.eqb n "pipewire" || String.eqb n "default") && (2 <=? ins)).

Definition mic_only : list device := [mk_device "Webcam Mic" 2].
Definition with_monitor : list device := [mk_device "Webcam Mic" 2; mk_device "Monitor of Built-in Audio" 2].
Definition flag_environ : gmap string string := <[AUDIO_LOOPBACK_ALREADY_SET := "1"%string]> ∅.
Definition loopback_config : AudioInputConfig := mk_config None LOOPBACK true None.

(** Inputs of a rendered report: a [mode.value] and device-line ends. *)
Definition sample_mode_value (m : AudioCaptureMode) : string :=
  match m with AUTO => "auto" | MICROPHONE => "microphone" | LOOPBACK => "loopback" | API => "api" end.
Definition sample_device_tail (d : AudioDeviceSummary) : string := "0ch out | ALSA".
Definition sample_report : AudioDiagnosticReport :=
  collect_audio_diagnostics (mk_config (Some 0) LOOPBACK true None) "Linux" with_monitor.

Definition flag_world (pactl : bool) : world :=
  mk_world "Linux" pactl false flag_environ None true true None.

Definition prior_environ : gmap string string :=
  <[HEADPHONE_SINK := "alsa_output.usb-headset"%string]> ∅.
Definition captured_defaults : option (option string * option string) :=
  Some (Some "alsa_output.pci-analog"%string, None).
(** A run that overwrites the flag and then raises. *)
Definition raising_run (e : gmap string string) : gmap string string * outcome :=
  (<[AUDIO_LOOPBACK_ALREADY_SET := "0"%string]> e, Raised).

(** The world of [w] with the helper script exiting with [ok]. *)
Definition with_script_result (w : world) (ok : bool) : world :=
  mk_world (w_system w) (w_pactl w) (w_powershell w) (w_environ w) (w_linux_defaults w)
    (w_script_exists w) ok (w_devices_after_script w).

Definition windows_world (ok : bool) : world :=
  mk_world "Windows" false true ∅ None true ok (Some [mk_device "Microphone (USB)" 1]).

(* ================================================================== *)
(** * Properties *)

(* ------------------------------------------------------------------ *)
(** ** Sample runs *)

Example lower_ex : lower "PipeWire Monitor" = "pipewire monitor"%string.
Proof. reflexivity. Qed.

Example detect_ex :
  detect_loopback_candidate "linux" (mk_config None AUTO true None) ["monitor"; "loopback"]%string
    [mk_device "Mic" 1; mk_device "default" 2] = true.
Proof. reflexivity. Qed.

Example collect_ex :
  map sname (collect_candidates "linux" (mk_config None AUTO true (Some "MySink"%string))
    [mk_device "Mic" 1; mk_device "default" 1; mk_device "x.mysink.y" 1; mk_device "Monitor of A" 0])
  = ["x.mysink.y"%string].
Proof. reflexivity. Qed.

Example prepare_ex :
  prepare (mk_config None AUTO true None) sample_world
    (mk_mstate (Some [mk_device "Mic" 1]) [] [])
  = (inr tt, mk_mstate (Some [mk_device "Mic" 1; mk_device "Monitor of codex_transcribe" 2])
       [RestoreDefaults (Some "alsa_output.pci"%string) None]
       [EvQueryDevices; EvPactlInfo; EvRunScript None; EvDetect]).
Proof. reflexivity. Qed.

(* ------------------------------------------------------------------ *)
(** ** Cleanup *)

Lemma pop_snoc {A} (l : list A) (a : A) : pop (l ++ [a]) = Some (a, l).
Proof. unfold pop. rewrite rev_app_distr. simpl. rewrite rev_involutive. reflexivity. Qed.

Lemma cleanup_loop_rev {S A} (run_action : A -> S -> option string * S) :
  forall (r : list A) fuel s warnings,
    (length r <= fuel)%nat ->
    cleanup_loop run_action fuel (rev r) s warnings =
    ([], fst (run_each run_action r s warnings), snd (run_each run_action r s warnings)).
Proof.
  induction r as [|a r IH]; intros fuel s warnings Hlen.
  - destruct fuel; reflexivity.
  - destruct fuel as [|n]; [simpl in Hlen; lia|].
    simpl. rewrite pop_snoc.
    destruct (run_action a s) as [res s'].
    apply IH. simpl in Hlen. lia.
Qed.

(** C4: cleanup pops the registered actions from the end, so it runs them in
    reverse order of registration; a raising action is caught and logged and
    the rest still run; the list is left empty (cleanup has no error
    outcome: every [Exception] of an action is caught), and a second call on
    the drained list runs nothing. *)
Theorem cleanup_runs_in_reverse {S A} (run_action : A -> S -> option string * S)
    (actions : list A) (s : S) (warnings : list string) :
  let '(rest, s1, warnings1) := cleanup run_action actions s warnings in
  rest = [] /\
  (s1, warnings1) = run_each run_action (rev actions) s warnings /\
  cleanup run_action rest s1 warnings1 = ([], s1, warnings1).
Proof.
  pose proof (cleanup_loop_rev run_action (rev actions) (length actions) s warnings) as H.
  rewrite rev_involutive, length_rev in H.
  unfold cleanup. rewrite H by lia.
  destruct (run_each run_action (rev actions) s warnings) as [s1 w1].
  simpl. auto.
Qed.

(* ------------------------------------------------------------------ *)
(** ** Classification: short-circuit check and exhaustive collection *)

Lemma detect_loop_cons p kws hint d ds :
  detect_loop p kws hint (d :: ds) =
  ((0 <? max_input_channels d) &&
   collect_is_candidate p kws hint (mk_summary 0 (name d) (max_input_channels d)))
  || detect_loop p kws hint ds.
Proof.
  simpl. destruct (max_input_channels d <=? 0) eqn:E.
  - replace (0 <? max_input_channels d) with false by (symmetry; apply Z.ltb_ge; apply Z.leb_le in E; lia).
    reflexivity.
  - replace (0 <? max_input_channels d) with true by (symmetry; apply Z.ltb_lt; apply Z.leb_gt in E; lia).
    simpl. unfold collect_is_candidate. simpl.
    destruct (_ : bool); reflexivity.
Qed.

Lemma detect_loop_existsb p kws hint devs :
  detect_loop p kws hint devs =
  existsb (fun d => (0 <? max_input_channels d) &&
             collect_is_candidate p kws hint (mk_summary 0 (name d) (max_input_channels d))) devs.
Proof.
  induction devs as [|d ds IH]; [reflexivity|].
  rewrite detect_loop_cons, IH. reflexivity.
Qed.

Lemma device_eqb_eq d1 d2 : device_eqb d1 d2 = true -> d1 = d2.
Proof.
  destruct d1 as [n1 i1], d2 as [n2 i2]. unfold device_eqb. simpl.
  intros H. apply andb_prop in H as [H1 H2].
  apply String.eqb_eq in H1. apply Z.eqb_eq in H2. subst. reflexivity.
Qed.

Lemma device_eqb_refl d : device_eqb d d = true.
Proof. unfold device_eqb. rewrite String.eqb_refl, Z.eqb_refl. reflexivity. Qed.

(** [dev in input_devices] holds exactly for the input-capable devices. *)
Lemma in_input_devices (devs : list device) d :
  In d devs ->
  existsb (device_eqb d) (List.filter (fun dev => 0 <? max_input_channels dev) devs) =
  (0 <? max_input_channels d).
Proof.
  intros Hin. destruct (0 <? max_input_channels d) eqn:E.
  - apply existsb_exists. exists d. split; [|apply device_eqb_refl].
    apply filter_In. auto.
  - apply not_true_iff_false. intros Hex.
    apply existsb_exists in Hex as [d' [Hd' Heq]].
    apply device_eqb_eq in Heq. subst d'.
    apply filter_In in Hd' as [_ Hd']. congruence.
Qed.

Lemma select_inputs_existsb (D : list device) (f : AudioDeviceSummary -> bool) :
  (forall i n k, f (mk_summary i n k) = f (mk_summary 0 n k)) ->
  forall devs i,
  (forall d, In d devs -> existsb (device_eqb d) D = (0 <? max_input_channels d)) ->
  existsb f (select_inputs D (summarise_from i devs) devs) =
  existsb (fun d => (0 <? max_input_channels d) &&
             f (mk_summary 0 (name d) (max_input_channels d))) devs.
Proof.
  intros Hf devs. induction devs as [|d ds IH]; intros i HD; [reflexivity|].
  simpl. rewrite (HD d (or_introl eq_refl)).
  destruct (0 <? max_input_channels d); simpl.
  - rewrite Hf, IH; [reflexivity|]. intros; apply HD; simpl; auto.
  - apply IH. intros; apply HD; simpl; auto.
Qed.

Lemma input_summaries_existsb (f : AudioDeviceSummary -> bool) devs :
  (forall i n k, f (mk_summary i n k) = f (mk_summary 0 n k)) ->
  existsb f (input_summaries_of devs) =
  existsb (fun d => (0 <? max_input_channels d) &&
             f (mk_summary 0 (name d) (max_input_channels d))) devs.
Proof.
  intros Hf. unfold input_summaries_of, summarise_devices.
  apply select_inputs_existsb; [exact Hf|].
  intros d Hd. apply in_input_devices. exact Hd.
Qed.

Lemma list_empty_filter {A} (f : A -> bool) l :
  list_empty (List.filter f l) = negb (existsb f l).
Proof.
  induction l as [|a l IH]; [reflexivity|]. simpl.
  destruct (f a); simpl; auto.
Qed.

(** C6: for every device list, platform and sink hint, the short-circuit
    check run with the platform's keyword table reports a candidate exactly
    when the exhaustive collection of the diagnostics is non-empty; the
    keyword lists that preparation passes are that same table. *)
Theorem detect_agrees_with_collect (platform : string) (config : AudioInputConfig)
    (devices : list device) :
  detect_loopback_candidate platform config (loopback_keywords platform) devices =
  negb (list_empty (collect_candidates platform config devices)) /\
  linux_keywords = loopback_keywords "linux" /\
  windows_keywords = loopback_keywords "windows" /\
  macos_keywords = loopback_keywords "darwin".
Proof.
  split; [|repeat split].
  unfold detect_loopback_candidate, collect_candidates.
  rewrite list_empty_filter, negb_involutive, detect_loop_existsb.
  symmetry. apply input_summaries_existsb. intros; reflexivity.
Qed.

(* ------------------------------------------------------------------ *)
(** ** The Linux classification rule *)

Lemma lower_eqb_empty h : String.eqb (lower h) "" = String.eqb h "".
Proof. destruct h; reflexivity. Qed.

Lemma collect_is_candidate_linux config s :
  collect_is_candidate "linux" (map lower linux_keywords) (sink_hint "linux" config) s =
  linux_candidate_rule config (sname s) (inputs s).
Proof.
  replace (map lower linux_keywords) with linux_keywords by reflexivity.
  unfold collect_is_candidate, linux_candidate_rule, sink_hint, linux_keywords, truthy, string_in.
  change (String.eqb "linux" "linux") with true.
  remember (lower (sname s)) as n.
  destruct (linux_loopback_sink config) as [h|]; simpl.
  - destruct (String.eqb h "") eqn:Eh; simpl; [|rewrite lower_eqb_empty, Eh; simpl];
    destruct (contains "monitor" n), (contains "loopback" n),
      (contains (lower h) n), (String.eqb n "pipewire"), (String.eqb n "default"),
      (2 <=? inputs s); reflexivity.
  - destruct (contains "monitor" n), (contains "loopback" n),
      (String.eqb n "pipewire"), (String.eqb n "default"), (2 <=? inputs s); reflexivity.
Qed.

Lemma select_inputs_positive (D : list device) :
  forall devs i,
  (forall d, In d devs -> existsb (device_eqb d) D = (0 <? max_input_channels d)) ->
  forallb (fun s => 0 <? inputs s) (select_inputs D (summarise_from i devs) devs) = true.
Proof.
  induction devs as [|d ds IH]; intros i HD; [reflexivity|].
  simpl. rewrite (HD d (or_introl eq_refl)).
  destruct (0 <? max_input_channels d) eqn:E; simpl.
  - rewrite E, IH; [reflexivity|]. intros; apply HD; simpl; auto.
  - apply IH. intros; apply HD; simpl; auto.
Qed.

Lemma input_summaries_positive devs :
  forallb (fun s => 0 <? inputs s) (input_summaries_of devs) = true.
Proof.
  unfold input_summaries_of, summarise_devices. apply select_inputs_positive.
  intros d Hd. apply in_input_devices. exact Hd.
Qed.

(** C2 (as the code has it): on Linux the preparation check and the
    diagnostics collection both classify an input-capable device as a
    loopback candidate exactly when [linux_candidate_rule] holds: the sink
    hint is matched as a case-insensitive substring of the name, and an
    empty hint is ignored; the collection only considers input-capable
    devices. *)
Theorem linux_classification_rule (config : AudioInputConfig) (devices : list device) :
  detect_loopback_candidate "linux" config linux_keywords devices =
  existsb (fun d => (0 <? max_input_channels d) &&
             linux_candidate_rule config (name d) (max_input_channels d)) devices /\
  collect_candidates "linux" config devices =
  List.filter (fun s => linux_candidate_rule config (sname s) (inputs s))
    (input_summaries_of devices) /\
  forallb (fun s => 0 <? inputs s) (input_summaries_of devices) = true.
Proof.
  split; [|split; [|apply input_summaries_positive]].
  - unfold detect_loopback_candidate. rewrite detect_loop_existsb.
    induction devices as [|d ds IH]; [reflexivity|].
    cbn [existsb]. rewrite IH, collect_is_candidate_linux. reflexivity.
  - unfold collect_candidates.
    change (loopback_keywords "linux") with linux_keywords.
    apply filter_ext. intros s. apply collect_is_candidate_linux.
Qed.

(** C2 counterexample: with the sink hint "MySink", a device named
    "x.mysink.y" is a candidate, though its name is not the hint. *)
Lemma linux_hint_is_substring_match :
  let config := mk_config None AUTO true (Some "MySink"%string) in
  let d := mk_device "x.mysink.y" 1 in
  collect_candidates "linux" config [d] = [mk_summary 0 "x.mysink.y" 1] /\
  detect_loopback_candidate "linux" config linux_keywords [d] = true /\
  linux_candidate_claimed config "x.mysink.y" 1 = false.
Proof. repeat split; reflexivity. Qed.

(* ------------------------------------------------------------------ *)
(** ** Preparation *)

Ltac split_all :=
  repeat match goal with
  | |- context [if ?b then _ else _] => destruct b
  | |- context [match ?x with _ => _ end] => destruct x
  end.

(** [_ensure_device_presence] only queries the devices: its verdict depends
    on the device list alone and the state only gains the query. *)
Lemma ensure_device_presence_frame config s :
  ensure_device_presence config s =
  (fst (ensure_device_presence config (mk_mstate (ms_devices s) [] [])),
   mk_mstate (ms_devices s) (ms_actions s) (ms_log s ++ [EvQueryDevices])).
Proof.
  destruct s as [[devs|] acts log];
    unfold ensure_device_presence, query_devices, bind, emit, raise, ret; simpl;
    [|reflexivity].
  split_all; reflexivity.
Qed.

(** Up to the mode dispatch, [prepare] in loopback mode clears the actions
    and queries the devices. *)
Lemma prepare_loopback_mode config w s0 devs :
  resolve_capture_mode config (w_system w) = LOOPBACK ->
  ms_devices s0 = Some devs ->
  fst (ensure_device_presence config (mk_mstate (Some devs) [] [])) = inr tt ->
  prepare config w s0 =
  prepare_loopback config w (mk_mstate (Some devs) [] (ms_log s0 ++ [EvQueryDevices])).
Proof.
  intros Hmode Hdev Hok. unfold prepare. rewrite Hmode.
  unfold bind at 1, clear_actions.
  unfold bind at 1. rewrite ensure_device_presence_frame. simpl. rewrite Hdev, Hok.
  reflexivity.
Qed.

Lemma prepare_loopback_linux config w :
  lower (w_system w) = "linux"%string ->
  prepare_loopback config w = prepare_linux_loopback config w.
Proof. intros H. unfold prepare_loopback. rewrite H. reflexivity. Qed.

(** C3: with a configured index outside [0, n-1] of an enumeration of
    length n, [prepare] fails with [DeviceUnavailable] after the device
    query alone: no script runs, no default changes, no rollback action is
    registered. *)
Theorem prepare_rejects_index_out_of_range config w s0 devs idx :
  ms_devices s0 = Some devs ->
  device_index config = Some idx ->
  (idx < 0 \/ Z.of_nat (length devs) <= idx) ->
  prepare config w s0 =
  (inl DeviceUnavailable, mk_mstate (Some devs) [] (ms_log s0 ++ [EvQueryDevices])).
Proof.
  intros Hdev Hidx Hrange.
  assert (Hb : ((idx <? 0) || (Z.of_nat (length devs) <=? idx))%bool = true).
  { destruct Hrange as [H|H]; apply orb_true_iff; [left; apply Z.ltb_lt | right; apply Z.leb_le]; lia. }
  assert (Hfail : fst (ensure_device_presence config (mk_mstate (Some devs) [] []))
                  = inl DeviceUnavailable).
  { cbv [ensure_device_presence bind query_devices emit raise ret].
    cbn [ms_devices ms_actions ms_log fst]. rewrite Hidx, Hb.
    destruct (list_empty devs); reflexivity. }
  unfold prepare. unfold bind at 1, clear_actions.
  unfold bind at 1. rewrite ensure_device_presence_frame. cbn [ms_devices ms_actions ms_log].
  rewrite Hdev, Hfail. reflexivity.
Qed.

(** With a non-empty query result, the presence check passes or fails
    with [DeviceUnavailable]. *)
Lemma presence_some_verdict config devs :
  fst (ensure_device_presence config (mk_mstate (Some devs) [] [])) = inr tt \/
  fst (ensure_device_presence config (mk_mstate (Some devs) [] [])) = inl DeviceUnavailable.
Proof.
  unfold ensure_device_presence, query_devices, bind, emit, raise, ret. simpl.
  destruct (list_empty devs); [right; reflexivity|].
  destruct (device_index config) as [i|].
  - destruct ((i <? 0) || (Z.of_nat (length devs) <=? i))%bool; [right; reflexivity|].
    destruct (nth_error devs (Z.to_nat i)) as [d|]; [|left; reflexivity].
    destruct (max_input_channels d <=? 0); [right|left]; reflexivity.
  - destruct (negb _); [right|left]; reflexivity.
Qed.

(** A failed presence check ends [prepare] right after the device query. *)
Lemma prepare_presence_failed config w s0 e :
  fst (ensure_device_presence config (mk_mstate (ms_devices s0) [] [])) = inl e ->
  prepare config w s0 = (inl e, mk_mstate (ms_devices s0) [] (ms_log s0 ++ [EvQueryDevices])).
Proof.
  intros He. unfold prepare. unfold bind at 1, clear_actions.
  unfold bind at 1. rewrite ensure_device_presence_frame. cbn [ms_devices ms_actions ms_log].
  rewrite He. reflexivity.
Qed.

(** C7 (as the code has it): on Linux in loopback mode with the flag
    AUDIO_LOOPBACK_ALREADY_SET=1, [prepare] registers no action and runs no
    script in any case.  It first queries the devices and runs the presence
    check, failing with [EnumerationFailure] or [DeviceUnavailable].  Then,
    with [pactl] on the PATH and no configured index, it runs one detection
    and fails with [NoLoopbackDetected] exactly when no candidate is found;
    with a configured index it succeeds without detection; without [pactl]
    it logs a warning and succeeds without any verification. *)
Theorem prepare_linux_flag_set_verifies_only config w s0 :
  lower (w_system w) = "linux"%string ->
  resolve_capture_mode config (w_system w) = LOOPBACK ->
  w_environ w !! AUDIO_LOOPBACK_ALREADY_SET = Some "1"%string ->
  prepare config w s0 =
  match ms_devices s0 with
  | None => (inl EnumerationFailure, mk_mstate None [] (ms_log s0 ++ [EvQueryDevices]))
  | Some devs =>
      match fst (ensure_device_presence config (mk_mstate (Some devs) [] [])) with
      | inl _ => (inl DeviceUnavailable, mk_mstate (Some devs) [] (ms_log s0 ++ [EvQueryDevices]))
      | inr _ =>
          if w_pactl w then
            match device_index config with
            | None =>
                (if detect_loopback_candidate "linux" config linux_keywords devs
                 then inr tt else inl NoLoopbackDetected,
                 mk_mstate (Some devs) [] (ms_log s0 ++ [EvQueryDevices; EvDetect]))
            | Some _ => (inr tt, mk_mstate (Some devs) [] (ms_log s0 ++ [EvQueryDevices]))
            end
          else (inr tt, mk_mstate (Some devs) [] (ms_log s0 ++ [EvQueryDevices; EvWarn]))
      end
  end.
Proof.
  intros Hlin Hmode Hflag.
  destruct (ms_devices s0) as [devs|] eqn:Hdev.
  2:{ rewrite (prepare_presence_failed config w s0 EnumerationFailure) by (rewrite Hdev; reflexivity).
      rewrite Hdev. reflexivity. }
  destruct (presence_some_verdict config devs) as [Hok|Hfail]; rewrite ?Hok, ?Hfail.
  2:{ rewrite (prepare_presence_failed config w s0 DeviceUnavailable) by (rewrite Hdev; exact Hfail).
      rewrite Hdev. reflexivity. }
  rewrite (prepare_loopback_mode config w s0 devs Hmode Hdev Hok).
  rewrite (prepare_loopback_linux config w Hlin).
  unfold prepare_linux_loopback. destruct (w_pactl w); simpl negb; cbv iota.
  - unfold AUDIO_LOOPBACK_ALREADY_SET in Hflag. rewrite (bool_decide_eq_true_2 _ Hflag).
    destruct (device_index config).
    + reflexivity.
    + unfold bind, detect, emit. simpl. rewrite Hlin, <- app_assoc.
      destruct (detect_loopback_candidate "linux" config linux_keywords devs); reflexivity.
  - unfold emit. simpl. rewrite <- app_assoc. reflexivity.
Qed.

(** C9 (as the code has it): on Linux in loopback mode without [pactl] on
    the PATH, [prepare] registers no action and runs neither a script nor a
    detection.  It fails only in the presence check that comes first: with
    [EnumerationFailure] when the devices cannot be queried, with
    [DeviceUnavailable] when the check rejects them.  Otherwise it logs a
    warning and succeeds. *)
Theorem prepare_linux_without_pactl config w s0 :
  lower (w_system w) = "linux"%string ->
  resolve_capture_mode config (w_system w) = LOOPBACK ->
  w_pactl w = false ->
  prepare config w s0 =
  match ms_devices s0 with
  | None => (inl EnumerationFailure, mk_mstate None [] (ms_log s0 ++ [EvQueryDevices]))
  | Some devs =>
      match fst (ensure_device_presence config (mk_mstate (Some devs) [] [])) with
      | inl _ => (inl DeviceUnavailable, mk_mstate (Some devs) [] (ms_log s0 ++ [EvQueryDevices]))
      | inr _ => (inr tt, mk_mstate (Some devs) [] (ms_log s0 ++ [EvQueryDevices; EvWarn]))
      end
  end.
Proof.
  intros Hlin Hmode Hpactl.
  destruct (ms_devices s0) as [devs|] eqn:Hdev.
  2:{ rewrite (prepare_presence_failed config w s0 EnumerationFailure) by (rewrite Hdev; reflexivity).
      rewrite Hdev. reflexivity. }
  destruct (presence_some_verdict config devs) as [Hok|Hfail]; rewrite ?Hok, ?Hfail.
  2:{ rewrite (prepare_presence_failed config w s0 DeviceUnavailable) by (rewrite Hdev; exact Hfail).
      rewrite Hdev. reflexivity. }
  rewrite (prepare_loopback_mode config w s0 devs Hmode Hdev Hok).
  rewrite (prepare_loopback_linux config w Hlin).
  unfold prepare_linux_loopback. rewrite Hpactl. simpl negb. cbv iota.
  unfold emit. simpl. rewrite <- app_assoc. reflexivity.
Qed.

Lemma prepare_rejects_index_out_of_range_witness :
  ms_devices (mk_mstate (Some mic_only) [] []) = Some mic_only /\
  device_index (mk_config (Some 3) MICROPHONE false None) = Some 3 /\
  (3 < 0 \/ Z.of_nat (length mic_only) <= 3) /\
  prepare (mk_config (Some 3) MICROPHONE false None) sample_world (mk_mstate (Some mic_only) [] [])
  = (inl DeviceUnavailable, mk_mstate (Some mic_only) [] ([] ++ [EvQueryDevices])).
Proof.
  split; [reflexivity|]. split; [reflexivity|].
  assert (H : 3 < 0 \/ Z.of_nat (length mic_only) <= 3) by (right; simpl; lia).
  split; [exact H|].
  exact (prepare_rejects_index_out_of_range (mk_config (Some 3) MICROPHONE false None)
           sample_world (mk_mstate (Some mic_only) [] []) mic_only 3 eq_refl eq_refl H).
Defined.

Lemma prepare_linux_flag_set_verifies_only_witness :
  lower (w_system (flag_world true)) = "linux"%string /\
  resolve_capture_mode loopback_config (w_system (flag_world true)) = LOOPBACK /\
  w_environ (flag_world true) !! AUDIO_LOOPBACK_ALREADY_SET = Some "1"%string /\
  prepare loopback_config (flag_world true) (mk_mstate (Some with_monitor) [] []) =
  (inr tt, mk_mstate (Some with_monitor) [] ([] ++ [EvQueryDevices; EvDetect])).
Proof.
  assert (H1 : lower (w_system (flag_world true)) = "linux"%string) by reflexivity.
  assert (H2 : resolve_capture_mode loopback_config (w_system (flag_world true)) = LOOPBACK)
    by reflexivity.
  assert (H4 : w_environ (flag_world true) !! AUDIO_LOOPBACK_ALREADY_SET = Some "1"%string)
    by (vm_compute; reflexivity).
  exact (conj H1 (conj H2 (conj H4 (eq_trans
    (prepare_linux_flag_set_verifies_only loopback_config (flag_world true)
       (mk_mstate (Some with_monitor) [] []) H1 H2 H4) eq_refl)))).
Defined.

(** C7 counterexample: without [pactl] the flag does not lead to any
    verification; [prepare] succeeds although no candidate exists and no
    index is configured. *)
Lemma flag_set_without_pactl_skips_verification :
  lower (w_system (flag_world false)) = "linux"%string /\
  resolve_capture_mode loopback_config (w_system (flag_world false)) = LOOPBACK /\
  detect_loopback_candidate "linux" loopback_config linux_keywords mic_only = false /\
  device_index loopback_config = None /\
  w_environ (flag_world false) !! AUDIO_LOOPBACK_ALREADY_SET = Some "1"%string /\
  fst (prepare loopback_config (flag_world false) (mk_mstate (Some mic_only) [] [])) = inr tt.
Proof. repeat split; vm_compute; reflexivity. Qed.

Lemma prepare_linux_without_pactl_witness :
  lower (w_system (flag_world false)) = "linux"%string /\
  resolve_capture_mode loopback_config (w_system (flag_world false)) = LOOPBACK /\
  w_pactl (flag_world false) = false /\
  prepare loopback_config (flag_world false) (mk_mstate (Some mic_only) [] []) =
  (inr tt, mk_mstate (Some mic_only) [] ([] ++ [EvQueryDevices; EvWarn])).
Proof.
  assert (H1 : lower (w_system (flag_world false)) = "linux"%string) by reflexivity.
  assert (H2 : resolve_capture_mode loopback_config (w_system (flag_world false)) = LOOPBACK)
    by reflexivity.
  assert (H3 : w_pactl (flag_world false) = false) by reflexivity.
  exact (conj H1 (conj H2 (conj H3 (eq_trans
    (prepare_linux_without_pactl loopback_config (flag_world false)
       (mk_mstate (Some mic_only) [] []) H1 H2 H3) eq_refl)))).
Defined.

(** C9 counterexample: without [pactl], an empty enumeration still makes
    [prepare] fail (with [DeviceUnavailable]) before the [pactl] check. *)
Lemma without_pactl_presence_check_still_fails :
  w_pactl (flag_world false) = false /\
  resolve_capture_mode loopback_config (w_system (flag_world false)) = LOOPBACK /\
  prepare loopback_config (flag_world false) (mk_mstate (Some []) [] []) =
  (inl DeviceUnavailable, mk_mstate (Some []) [] [EvQueryDevices]).
Proof. repeat split; reflexivity. Qed.

(* ------------------------------------------------------------------ *)
(** ** Module diff and unload *)

Lemma enumeration_of_singleton (l : list string) (a : string) :
  NoDup l -> (forall x, x ∈ l <-> x = a) -> l = [a].
Proof.
  intros Hnd Hmem. destruct l as [|y l].
  - exfalso. apply (not_elem_of_nil a). apply Hmem. reflexivity.
  - assert (Hy : y = a) by (apply Hmem; left). subst y.
    destruct l as [|z l]; [reflexivity|].
    assert (Hz : z = a) by (apply Hmem; right; left). subst z.
    apply NoDup_cons in Hnd as [Hnot _]. exfalso. apply Hnot. left.
Qed.

(** C5: the diff-and-unload step unloads, with no repetition, exactly the
    ["loop"] modules of [after] absent from [before], then exactly the
    ["null"] modules of [after] absent from [before]; whatever the iteration
    order of the Python sets, before = {null:{1}, loop:{}} and
    after = {null:{1,2}, loop:{3}} unload module 3 and then module 2. *)
Theorem diff_and_unload_new_only (set_iter : gset string -> list string)
    (Hnodup : forall X, NoDup (set_iter X))
    (Hmem : forall X x, x ∈ set_iter X <-> x ∈ X)
    (before after : module_snapshot) :
  (exists loops nulls,
     diff_and_unload set_iter before after =
       map PactlUnloadModule loops ++ map PactlUnloadModule nulls /\
     NoDup loops /\ NoDup nulls /\
     (forall x, x ∈ loops <-> x ∈ loop after /\ x ∉ loop before) /\
     (forall x, x ∈ nulls <-> x ∈ null after /\ x ∉ null before)) /\
  diff_and_unload set_iter
    (mk_modules {["1"%string]} ∅) (mk_modules {["1"%string; "2"%string]} {["3"%string]}) =
  [PactlUnloadModule "3"; PactlUnloadModule "2"].
Proof.
  split.
  - exists (set_iter (loop after ∖ loop before)), (set_iter (null after ∖ null before)).
    split; [reflexivity|]. split; [apply Hnodup|]. split; [apply Hnodup|].
    split; intros x; rewrite Hmem; set_solver.
  - unfold diff_and_unload, unload_linux_modules, diff_modules. simpl.
    rewrite (enumeration_of_singleton (set_iter ({["3"%string]} ∖ ∅)) "3");
      [|apply Hnodup|intros x; rewrite Hmem; set_solver].
    rewrite (enumeration_of_singleton (set_iter ({["1"%string; "2"%string]} ∖ {["1"%string]})) "2");
      [reflexivity|apply Hnodup|].
    intros x. rewrite Hmem, elem_of_difference, elem_of_union, !elem_of_singleton.
    split; [intros [[H|H] Hn]; [contradiction|exact H]|].
    intros ->. split; [right; reflexivity|discriminate].
Qed.

Lemma diff_and_unload_new_only_witness :
  (forall X : gset string, NoDup (elements X)) /\
  (forall (X : gset string) x, x ∈ elements X <-> x ∈ X) /\
  diff_and_unload elements
    (mk_modules {["1"%string]} ∅) (mk_modules {["1"%string; "2"%string]} {["3"%string]}) =
  [PactlUnloadModule "3"; PactlUnloadModule "2"].
Proof.
  assert (H1 : forall X : gset string, NoDup (elements X)) by (intros; apply NoDup_elements).
  assert (H2 : forall (X : gset string) x, x ∈ elements X <-> x ∈ X)
    by (intros; apply elem_of_elements).
  exact (conj H1 (conj H2
    (proj2 (diff_and_unload_new_only elements H1 H2
       (mk_modules {["1"%string]} ∅) (mk_modules {["1"%string; "2"%string]} {["3"%string]}))))).
Defined.

(* ------------------------------------------------------------------ *)
(** ** Environment hints around the pipeline run *)

Lemma hint_keys_differ : HEADPHONE_SINK <> AUDIO_LOOPBACK_ALREADY_SET.
Proof. discriminate. Qed.

Lemma restore_var_same k p (e : gmap string string) : restore_var k p e !! k = p.
Proof.
  destruct p; unfold restore_var; [apply lookup_insert_eq|apply lookup_delete_eq].
Qed.

Lemma restore_var_other k k' p (e : gmap string string) :
  k <> k' -> restore_var k p e !! k' = e !! k'.
Proof.
  intros Hne. destruct p; unfold restore_var;
    [apply lookup_insert_ne|apply lookup_delete_ne]; exact Hne.
Qed.

Lemma set_run_hints_linux defaults (environ : gmap string string) :
  let '(headphone_prev, loopback_prev, env_run) := set_run_hints "linux" defaults environ in
  loopback_prev = environ !! AUDIO_LOOPBACK_ALREADY_SET /\
  env_run !! AUDIO_LOOPBACK_ALREADY_SET = Some "1"%string /\
  (forall h src, defaults = Some (Some h, src) -> h <> ""%string ->
     headphone_prev = environ !! HEADPHONE_SINK /\ env_run !! HEADPHONE_SINK = Some h).
Proof.
  unfold set_run_hints. change (String.eqb "linux" "linux") with true. cbv iota.
  destruct defaults as [[sink src]|].
  - destruct (truthy sink) eqn:Ht.
    + split; [rewrite lookup_insert_ne; [reflexivity|exact hint_keys_differ]|].
      split; [apply lookup_insert_eq|].
      intros h src' Heq Hne. injection Heq as -> ->.
      split; [reflexivity|].
      rewrite lookup_insert_ne by (apply not_eq_sym, hint_keys_differ).
      apply lookup_insert_eq.
    + split; [reflexivity|]. split; [apply lookup_insert_eq|].
      intros h src' Heq Hne. injection Heq as -> ->.
      simpl in Ht. apply negb_false_iff, String.eqb_eq in Ht. contradiction.
  - split; [reflexivity|]. split; [apply lookup_insert_eq|].
    intros h src Heq. discriminate.
Qed.

(** C1: on Linux, when the user accepts the launch, the run sees
    AUDIO_LOOPBACK_ALREADY_SET=1 (and HEADPHONE_SINK set to the captured
    default sink when there is one), and after the run, whatever the run did
    to the environment and however it ended (completion, error or
    cancellation), each hint that was set for the run is back at its value
    before, or absent if it was absent. *)
Theorem launch_restores_run_hints (set_iter : gset string -> list string) system
    defaults_before_script modules_to_unload start
    (pipeline : gmap string string -> gmap string string * outcome)
    (environ : gmap string string) :
  system = "linux"%string ->
  string_in start [""; "y"; "yes"]%string = true ->
  let '(_, _, env_run) := set_run_hints system defaults_before_script environ in
  let '(env_final, oc, _) :=
    launch_phase set_iter system defaults_before_script modules_to_unload start pipeline environ in
  oc = Some (snd (pipeline env_run)) /\
  env_run !! AUDIO_LOOPBACK_ALREADY_SET = Some "1"%string /\
  env_final !! AUDIO_LOOPBACK_ALREADY_SET = environ !! AUDIO_LOOPBACK_ALREADY_SET /\
  (forall h src, defaults_before_script = Some (Some h, src) -> h <> ""%string ->
     env_run !! HEADPHONE_SINK = Some h /\
     env_final !! HEADPHONE_SINK = environ !! HEADPHONE_SINK).
Proof.
  intros -> Hstart.
  pose proof (set_run_hints_linux defaults_before_script environ) as Hset.
  unfold launch_phase. rewrite Hstart.
  destruct (set_run_hints "linux" defaults_before_script environ)
    as [[headphone_prev loopback_prev] env_run].
  destruct Hset as [Hlb [Hrun Hhp]].
  destruct (pipeline env_run) as [env_after oc].
  change (String.eqb "linux" "linux") with true. cbv iota.
  split; [reflexivity|]. split; [exact Hrun|]. split.
  - rewrite restore_var_same. exact Hlb.
  - intros h src Hd Hne. destruct (Hhp h src Hd Hne) as [Hprev Hh].
    split; [exact Hh|].
    rewrite restore_var_other by (apply not_eq_sym, hint_keys_differ).
    rewrite restore_var_same. exact Hprev.
Qed.

(** C10: on Linux, when the user declines the launch, both variables are
    removed from the environment, whatever their values before; the other
    variables are left unchanged. *)
Theorem launch_declined_drops_hints (set_iter : gset string -> list string) system
    defaults_before_script modules_to_unload start
    (pipeline : gmap string string -> gmap string string * outcome)
    (environ : gmap string string) :
  system = "linux"%string ->
  string_in start [""; "y"; "yes"]%string = false ->
  let '(env_final, oc, _) :=
    launch_phase set_iter system defaults_before_script modules_to_unload start pipeline environ in
  oc = None /\
  env_final !! AUDIO_LOOPBACK_ALREADY_SET = None /\
  env_final !! HEADPHONE_SINK = None /\
  (forall k, k <> AUDIO_LOOPBACK_ALREADY_SET -> k <> HEADPHONE_SINK ->
     env_final !! k = environ !! k).
Proof.
  intros -> Hstart. unfold launch_phase. rewrite Hstart.
  change (String.eqb "linux" "linux") with true. cbv iota.
  split; [reflexivity|]. split.
  - rewrite lookup_delete_ne by exact hint_keys_differ. apply lookup_delete_eq.
  - split; [apply lookup_delete_eq|].
    intros k Hk1 Hk2.
    rewrite lookup_delete_ne by (apply not_eq_sym; exact Hk2).
    apply lookup_delete_ne. apply not_eq_sym. exact Hk1.
Qed.

Lemma launch_restores_run_hints_witness :
  "linux"%string = "linux"%string /\
  string_in "y" [""; "y"; "yes"]%string = true /\
  let '(_, _, env_run) := set_run_hints "linux" captured_defaults prior_environ in
  let '(env_final, oc, _) :=
    launch_phase elements "linux" captured_defaults (mk_modules ∅ ∅) "y" raising_run prior_environ in
  oc = Some (snd (raising_run env_run)) /\
  env_run !! AUDIO_LOOPBACK_ALREADY_SET = Some "1"%string /\
  env_final !! AUDIO_LOOPBACK_ALREADY_SET = prior_environ !! AUDIO_LOOPBACK_ALREADY_SET /\
  (forall h src, captured_defaults = Some (Some h, src) -> h <> ""%string ->
     env_run !! HEADPHONE_SINK = Some h /\
     env_final !! HEADPHONE_SINK = prior_environ !! HEADPHONE_SINK).
Proof.
  assert (H : string_in "y" [""; "y"; "yes"]%string = true) by reflexivity.
  exact (conj eq_refl (conj H
    (launch_restores_run_hints elements "linux" captured_defaults (mk_modules ∅ ∅) "y"
       raising_run prior_environ eq_refl H))).
Defined.

Lemma launch_declined_drops_hints_witness :
  "linux"%string = "linux"%string /\
  string_in "n" [""; "y"; "yes"]%string = false /\
  let '(env_final, oc, _) :=
    launch_phase elements "linux" None (mk_modules ∅ ∅) "n" raising_run
      (<[AUDIO_LOOPBACK_ALREADY_SET := "1"%string]> prior_environ) in
  oc = None /\
  env_final !! AUDIO_LOOPBACK_ALREADY_SET = None /\
  env_final !! HEADPHONE_SINK = None /\
  (forall k, k <> AUDIO_LOOPBACK_ALREADY_SET -> k <> HEADPHONE_SINK ->
     env_final !! k = (<[AUDIO_LOOPBACK_ALREADY_SET := "1"%string]> prior_environ) !! k).
Proof.
  assert (H : string_in "n" [""; "y"; "yes"]%string = false) by reflexivity.
  exact (conj eq_refl (conj H
    (launch_declined_drops_hints elements "linux" None (mk_modules ∅ ∅) "n" raising_run
       (<[AUDIO_LOOPBACK_ALREADY_SET := "1"%string]> prior_environ) eq_refl H))).
Defined.

(** When no default sink was captured (the helper script was declined or
    [pactl info] gave nothing), HEADPHONE_SINK is not set for the run, yet
    the [finally] block removes a value it had before. *)
Lemma launch_drops_unset_headphone_sink :
  let '(env_final, _, _) :=
    launch_phase elements "linux" None (mk_modules ∅ ∅) "y"
      (fun e => (e, Completed)) prior_environ in
  prior_environ !! HEADPHONE_SINK = Some "alsa_output.usb-headset"%string /\
  env_final !! HEADPHONE_SINK = None.
Proof. vm_compute. split; reflexivity. Qed.

(* ------------------------------------------------------------------ *)
(** ** Diagnostics without loopback candidates *)

Lemma list_empty_existsb_true {A} (l : list A) :
  list_empty l = negb (existsb (fun _ => true) l).
Proof. destruct l; reflexivity. Qed.

(** C8: on Linux in effective loopback mode, with at least one
    input-capable device, no candidate and no configured index, the issues
    are exactly the no-candidate message and the only recommendation is the
    one to pin AUDIO_DEVICE_INDEX, which names no candidate. *)
Theorem collect_reports_missing_loopback config system devices :
  lower system = "linux"%string ->
  resolve_capture_mode config system = LOOPBACK ->
  device_index config = None ->
  existsb (fun d => 0 <? max_input_channels d) devices = true ->
  collect_candidates "linux" config devices = [] ->
  r_issues (collect_audio_diagnostics config system devices) = [msg_no_loopback] /\
  r_recommendations (collect_audio_diagnostics config system devices) = [rec_pin_index] /\
  forallb (fun r => negb (String.prefix rec_candidates_prefix r))
    (r_recommendations (collect_audio_diagnostics config system devices)) = true.
Proof.
  intros Hlin Hmode Hidx Hin Hcand.
  assert (Hne : list_empty (input_summaries_of devices) = false).
  { rewrite list_empty_existsb_true, input_summaries_existsb by reflexivity.
    clear -Hin. induction devices as [|d ds IH]; [discriminate|].
    simpl in *. rewrite andb_true_r.
    destruct (0 <? max_input_channels d); [reflexivity|]. apply IH. exact Hin. }
  unfold collect_audio_diagnostics. cbv zeta.
  rewrite Hlin, Hcand, Hmode, Hidx, Hne. simpl.
  split; [reflexivity|]. split; reflexivity.
Qed.

Lemma collect_reports_missing_loopback_witness :
  lower "Linux" = "linux"%string /\
  resolve_capture_mode loopback_config "Linux" = LOOPBACK /\
  device_index loopback_config = None /\
  existsb (fun d => 0 <? max_input_channels d) mic_only = true /\
  collect_candidates "linux" loopback_config mic_only = [] /\
  r_issues (collect_audio_diagnostics loopback_config "Linux" mic_only) = [msg_no_loopback] /\
  r_recommendations (collect_audio_diagnostics loopback_config "Linux" mic_only) = [rec_pin_index] /\
  forallb (fun r => negb (String.prefix rec_candidates_prefix r))
    (r_recommendations (collect_audio_diagnostics loopback_config "Linux" mic_only)) = true.
Proof.
  assert (H1 : lower "Linux" = "linux"%string) by reflexivity.
  assert (H2 : resolve_capture_mode loopback_config "Linux" = LOOPBACK) by reflexivity.
  assert (H4 : existsb (fun d => 0 <? max_input_channels d) mic_only = true) by reflexivity.
  assert (H5 : collect_candidates "linux" loopback_config mic_only = []) by reflexivity.
  exact (conj H1 (conj H2 (conj eq_refl (conj H4 (conj H5
    (collect_reports_missing_loopback loopback_config "Linux" mic_only H1 H2 eq_refl H4 H5)))))).
Defined.

(* ================================================================== *)
(** * Further properties of the code *)

(** Case analysis on every atomic scrutinee of the goal. *)
Ltac case_atoms :=
  repeat match goal with
  | |- context [match ?x with _ => _ end] =>
      lazymatch x with
      | context [match _ with _ => _ end] => fail
      | _ => destruct x eqn:?
      end
  end.

Ltac unfold_manager :=
  unfold prepare, prepare_loopback, prepare_linux_loopback, prepare_windows_loopback,
    prepare_macos_loopback, ensure_device_presence, detect, query_devices, run_script,
    register, clear_actions, when_, emit, bind, raise, ret in *.

Lemma prepare_actions_cases config w s0 :
  ms_actions (snd (prepare config w s0)) = [] \/
  exists sink source, w_linux_defaults w = Some (sink, source) /\
    ms_actions (snd (prepare config w s0)) = [RestoreDefaults sink source].
Proof.
  destruct s0 as [d0 a0 l0]. unfold_manager. simpl.
  case_atoms; simpl; eauto.
Qed.

(** [prepare] leaves at most one rollback action: none, or the restore of
    the defaults read from [pactl info]. *)
Theorem prepare_registers_at_most_restore config w s0 :
  ms_actions (snd (prepare config w s0)) = [] \/
  exists sink source, w_linux_defaults w = Some (sink, source) /\
    ms_actions (snd (prepare config w s0)) = [RestoreDefaults sink source].
Proof. exact (prepare_actions_cases config w s0). Qed.

(** [resolve_capture_mode] never yields [AUTO], and an explicit mode passes
    through unchanged. *)
Theorem resolve_capture_mode_never_auto config system :
  resolve_capture_mode config system <> AUTO /\
  (mode config = AUTO \/ resolve_capture_mode config system = mode config).
Proof.
  unfold resolve_capture_mode. destruct (mode config);
    [destruct (string_in (lower system) ["linux"; "windows"; "darwin"]%string)|..];
    (split; [discriminate | auto]).
Qed.

(** [_ensure_device_presence] either passes or fails with
    [DeviceUnavailable] once the query succeeds, fails with
    [EnumerationFailure] when the query raises, and passes exactly when the
    configured index is in range and names an input-capable device, or, with
    no index, when some device is input-capable. *)
Theorem ensure_device_presence_verdict config devs :
  fst (ensure_device_presence config (mk_mstate None [] [])) = inl EnumerationFailure /\
  (fst (ensure_device_presence config (mk_mstate (Some devs) [] [])) = inr tt \/
   fst (ensure_device_presence config (mk_mstate (Some devs) [] [])) = inl DeviceUnavailable) /\
  (fst (ensure_device_presence config (mk_mstate (Some devs) [] [])) = inr tt <->
   match device_index config with
   | Some idx => 0 <= idx < Z.of_nat (length devs) /\
       exists d, nth_error devs (Z.to_nat idx) = Some d /\ 0 < max_input_channels d
   | None => exists d, In d devs /\ 0 < max_input_channels d
   end).
Proof.
  split; [reflexivity|].
  unfold ensure_device_presence, query_devices, emit, bind, raise, ret. cbn [fst snd ms_devices].
  destruct (list_empty devs) eqn:Hemp.
  - destruct devs; [|discriminate]. split; [auto|]. split; [discriminate|].
    destruct (device_index config); simpl.
    + intros [H _]. lia.
    + intros [d [[] _]].
  - destruct (device_index config) as [idx|].
    + destruct ((idx <? 0) || (Z.of_nat (length devs) <=? idx))%bool eqn:Hr.
      * split; [auto|]. split; [discriminate|].
        intros [Hb _]. apply orb_true_iff in Hr as [Hr|Hr];
          [apply Z.ltb_lt in Hr|apply Z.leb_le in Hr]; lia.
      * apply orb_false_iff in Hr as [Hr1 Hr2].
        apply Z.ltb_ge in Hr1. apply Z.leb_gt in Hr2.
        destruct (nth_error devs (Z.to_nat idx)) as [d|] eqn:Hn.
        -- destruct (max_input_channels d <=? 0) eqn:Hi.
           ++ split; [auto|]. split; [discriminate|].
              intros [_ [d' [Hd' Hpos]]]. injection Hd' as <-.
              apply Z.leb_le in Hi. lia.
           ++ split; [auto|]. split; [intros _|reflexivity].
              split; [lia|]. exists d. split; [reflexivity|]. apply Z.leb_gt in Hi. exact Hi.
        -- exfalso. apply nth_error_None in Hn. lia.
    + destruct (existsb (fun dev => 0 <? max_input_channels dev) devs) eqn:He; simpl.
      * split; [auto|]. split; [intros _|reflexivity].
        apply existsb_exists in He as [d [Hin Hpos]]. exists d. split; [exact Hin|].
        apply Z.ltb_lt. exact Hpos.
      * split; [auto|]. split; [discriminate|].
        intros [d [Hin Hpos]]. apply Z.ltb_lt in Hpos.
        assert (Hx : existsb (fun dev => 0 <? max_input_channels dev) devs = true)
          by (apply existsb_exists; eauto).
        congruence.
Qed.

(** Outside loopback mode [prepare] only checks device presence: no
    detection, no helper script, no rollback action (API mode adds one log
    line when the check passes).  Its result is the presence check's,
    including [EnumerationFailure] when the devices cannot be queried. *)
Theorem prepare_outside_loopback_only_checks_devices config w s0 :
  resolve_capture_mode config (w_system w) <> LOOPBACK ->
  prepare config w s0 =
  (fst (ensure_device_presence config (mk_mstate (ms_devices s0) [] [])),
   mk_mstate (ms_devices s0) []
     (ms_log s0 ++ EvQueryDevices ::
        match fst (ensure_device_presence config (mk_mstate (ms_devices s0) [] [])),
              resolve_capture_mode config (w_system w) with
        | inr _, API => [EvInfo]
        | _, _ => []
        end)).
Proof.
  intros Hmode. destruct s0 as [d0 a0 l0]. simpl.
  destruct d0 as [devs|].
  - unfold_manager. simpl. case_atoms; simpl in *; try congruence;
      rewrite <- ?app_assoc; try reflexivity; f_equal; congruence.
  - unfold_manager. simpl. destruct (resolve_capture_mode config (w_system w)); reflexivity.
Qed.

Lemma prepare_outside_loopback_only_checks_devices_witness :
  resolve_capture_mode (mk_config None MICROPHONE true None) (w_system sample_world) <> LOOPBACK /\
  prepare (mk_config None MICROPHONE true None) sample_world (mk_mstate None [] []) =
  (inl EnumerationFailure, mk_mstate None [] ([] ++ [EvQueryDevices])).
Proof.
  assert (H : resolve_capture_mode (mk_config None MICROPHONE true None) (w_system sample_world)
              <> LOOPBACK) by discriminate.
  exact (conj H (eq_trans
    (prepare_outside_loopback_only_checks_devices (mk_config None MICROPHONE true None)
       sample_world (mk_mstate None [] []) H) eq_refl)).
Defined.

(** [prepare] runs a helper script only in loopback mode with
    [auto_setup_loopback] set and the script present. *)
Theorem prepare_runs_script_only_for_auto_setup config w s0 hint :
  In (EvRunScript hint) (ms_log (snd (prepare config w s0))) ->
  In (EvRunScript hint) (ms_log s0) \/
  (resolve_capture_mode config (w_system w) = LOOPBACK /\
   auto_setup_loopback config = true /\ w_script_exists w = true).
Proof.
  destruct s0 as [d0 a0 l0]. unfold_manager. simpl.
  destruct (w_script_exists w);
  case_atoms; simpl; intros H; rewrite ?in_app_iff in H; simpl in H;
    intuition (try congruence).
Qed.

Lemma prepare_runs_script_only_for_auto_setup_witness :
  In (EvRunScript None)
    (ms_log (snd (prepare (mk_config None AUTO true None) sample_world
                    (mk_mstate (Some [mk_device "Mic" 1]) [] [])))) /\
  (In (EvRunScript None) (ms_log (mk_mstate (Some [mk_device "Mic" 1]) [] [])) \/
   (resolve_capture_mode (mk_config None AUTO true None) (w_system sample_world) = LOOPBACK /\
    auto_setup_loopback (mk_config None AUTO true None) = true /\
    w_script_exists sample_world = true)).
Proof.
  assert (H : In (EvRunScript None)
    (ms_log (snd (prepare (mk_config None AUTO true None) sample_world
                    (mk_mstate (Some [mk_device "Mic" 1]) [] []))))) by (vm_compute; right; right; left; reflexivity).
  exact (conj H (prepare_runs_script_only_for_auto_setup _ _ _ None H)).
Defined.

(** On Linux, when the auto-setup script fails, [prepare] raises
    [LoopbackSetupFailure] with the restore of the captured defaults
    still registered, so [cleanup] can undo whatever the script changed. *)
Theorem prepare_linux_script_failure_keeps_restore config w s0 devs :
  lower (w_system w) = "linux"%string ->
  resolve_capture_mode config (w_system w) = LOOPBACK ->
  w_pactl w = true ->
  w_environ w !! "AUDIO_LOOPBACK_ALREADY_SET"%string <> Some "1"%string ->
  auto_setup_loopback config = true ->
  w_script_exists w = true ->
  w_script_ok w = false ->
  ms_devices s0 = Some devs ->
  fst (ensure_device_presence config (mk_mstate (Some devs) [] [])) = inr tt ->
  prepare config w s0 =
  (inl LoopbackSetupFailure,
   mk_mstate (w_devices_after_script w)
     (match w_linux_defaults w with
      | Some (sink, source) => [RestoreDefaults sink source]
      | None => []
      end)
     (ms_log s0 ++
        [EvQueryDevices; EvPactlInfo;
         EvRunScript (if truthy (linux_loopback_sink config) then linux_loopback_sink config
                      else w_environ w !! "HEADPHONE_SINK"%string)])).
Proof.
  intros Hsys Hmode Hpactl Hflag Hauto Hex Hok Hdev Hpres.
  rewrite (prepare_loopback_mode config w s0 devs Hmode Hdev Hpres).
  rewrite (prepare_loopback_linux config w Hsys).
  unfold prepare_linux_loopback. rewrite Hpactl. cbn [negb].
  rewrite (bool_decide_eq_false_2 _ Hflag), Hauto.
  unfold when_, bind, emit, register, ret, run_script, raise.
  destruct (w_linux_defaults w) as [[sink source]|]; cbn [ms_devices ms_actions ms_log];
    rewrite Hex, Hok; cbn; rewrite <- !app_assoc; reflexivity.
Qed.

Lemma prepare_linux_script_failure_keeps_restore_witness :
  prepare loopback_config
    (mk_world "Linux" true false ∅ (Some (Some "alsa_output.pci"%string, None)) true false
       (Some mic_only))
    (mk_mstate (Some mic_only) [] []) =
  (inl LoopbackSetupFailure,
   mk_mstate (Some mic_only) [RestoreDefaults (Some "alsa_output.pci"%string) None]
     ([] ++ [EvQueryDevices; EvPactlInfo; EvRunScript None])).
Proof.
  exact (prepare_linux_script_failure_keeps_restore loopback_config
    (mk_world "Linux" true false ∅ (Some (Some "alsa_output.pci"%string, None)) true false
       (Some mic_only))
    (mk_mstate (Some mic_only) [] []) mic_only
    eq_refl eq_refl eq_refl ltac:(cbn [w_environ]; rewrite lookup_empty; discriminate) eq_refl eq_refl eq_refl eq_refl
    eq_refl).
Defined.

(** On Windows and macOS a failing helper script is not fatal: [prepare]
    reaches the same verdict as with a succeeding script, and registers no
    rollback action either way. *)
Theorem prepare_helper_failure_nonfatal_off_linux config w s0 :
  lower (w_system w) = "windows"%string \/ lower (w_system w) = "darwin"%string ->
  fst (prepare config (with_script_result w false) s0) =
  fst (prepare config (with_script_result w true) s0) /\
  ms_actions (snd (prepare config (with_script_result w false) s0)) = [] /\
  ms_actions (snd (prepare config (with_script_result w true) s0)) = [].
Proof.
  intros Hsys. destruct s0 as [d0 a0 l0].
  unfold with_script_result. unfold_manager. cbn [w_system w_script_ok w_pactl
    w_powershell w_environ w_linux_defaults w_script_exists w_devices_after_script
    ms_devices ms_actions ms_log fst snd].
  destruct Hsys as [H|H]; rewrite H; cbn [String.eqb Ascii.eqb Bool.eqb andb];
    case_atoms; simpl in *; auto; exfalso; congruence.
Qed.

Lemma prepare_helper_failure_nonfatal_off_linux_witness :
  (lower (w_system (windows_world true)) = "windows"%string \/
   lower (w_system (windows_world true)) = "darwin"%string) /\
  fst (prepare loopback_config (with_script_result (windows_world true) false)
         (mk_mstate (Some mic_only) [] [])) =
  fst (prepare loopback_config (with_script_result (windows_world true) true)
         (mk_mstate (Some mic_only) [] [])) /\
  ms_actions (snd (prepare loopback_config (with_script_result (windows_world true) false)
         (mk_mstate (Some mic_only) [] []))) = [] /\
  ms_actions (snd (prepare loopback_config (with_script_result (windows_world true) true)
         (mk_mstate (Some mic_only) [] []))) = [].
Proof.
  assert (H : lower (w_system (windows_world true)) = "windows"%string \/
              lower (w_system (windows_world true)) = "darwin"%string) by (left; reflexivity).
  exact (conj H (prepare_helper_failure_nonfatal_off_linux loopback_config
                   (windows_world true) (mk_mstate (Some mic_only) [] []) H)).
Defined.

Lemma detect_loop_keyword_only p ks hint devs :
  String.eqb p "linux" = false ->
  (String.eqb p "windows" = true -> In "loopback"%string ks) ->
  (String.eqb p "darwin" = true -> In "blackhole"%string ks) ->
  detect_loop p ks hint devs =
  existsb (fun d => (0 <? max_input_channels d) &&
                    existsb (fun k => contains k (lower (name d))) ks)%bool devs.
Proof.
  intros Hl Hw Hd. induction devs as [|d ds IH]; [reflexivity|]. simpl.
  rewrite Hl, IH.
  destruct (max_input_channels d <=? 0) eqn:Hi.
  { replace (0 <? max_input_channels d) with false
      by (symmetry; apply Z.ltb_ge; apply Z.leb_le in Hi; exact Hi). reflexivity. }
  replace (0 <? max_input_channels d) with true
    by (symmetry; apply Z.ltb_lt; apply Z.leb_gt in Hi; exact Hi). simpl.
  destruct (existsb (fun k => contains k (lower (name d))) ks) eqn:He;
    [destruct (String.eqb p "windows"), (String.eqb p "darwin"); reflexivity|].
  destruct (String.eqb p "windows") eqn:Ew.
  - destruct (contains "loopback" (lower (name d))) eqn:Hc; [|reflexivity].
    exfalso. assert (existsb (fun k => contains k (lower (name d))) ks = true)
      by (apply existsb_exists; eauto). congruence.
  - destruct (String.eqb p "darwin") eqn:Ed; [|reflexivity].
    destruct (contains "blackhole" (lower (name d))) eqn:Hc; [|reflexivity].
    exfalso. assert (existsb (fun k => contains k (lower (name d))) ks = true)
      by (apply existsb_exists; eauto). congruence.
Qed.

Lemma collect_is_candidate_keyword_only p ks hint s :
  String.eqb p "linux" = false ->
  (String.eqb p "windows" = true -> In "loopback"%string ks) ->
  (String.eqb p "darwin" = true -> In "blackhole"%string ks) ->
  collect_is_candidate p ks hint s = existsb (fun k => contains k (lower (sname s))) ks.
Proof.
  intros Hl Hw Hd. unfold collect_is_candidate. rewrite Hl.
  destruct (existsb (fun k => contains k (lower (sname s))) ks) eqn:He;
    [destruct (String.eqb p "windows"), (String.eqb p "darwin"); reflexivity|].
  destruct (String.eqb p "windows") eqn:Ew.
  - destruct (contains "loopback" (lower (sname s))) eqn:Hc; [|reflexivity].
    exfalso. assert (existsb (fun k => contains k (lower (sname s))) ks = true)
      by (apply existsb_exists; eauto). congruence.
  - destruct (String.eqb p "darwin") eqn:Ed; [|reflexivity].
    destruct (contains "blackhole" (lower (sname s))) eqn:Hc; [|reflexivity].
    exfalso. assert (existsb (fun k => contains k (lower (sname s))) ks = true)
      by (apply existsb_exists; eauto). congruence.
Qed.

(** On Windows and macOS the extra name rules ("loopback" with "wasapi",
    "blackhole") never add a candidate, because "loopback" and "blackhole"
    are already keywords: both the detection in [prepare] and the
    diagnostic collection reduce to a keyword match on input-capable
    devices, and the sink hint plays no part. *)
Theorem windows_macos_candidates_are_keyword_matches config devs :
  detect_loopback_candidate "windows" config windows_keywords devs =
  existsb (fun d => (0 <? max_input_channels d) &&
            existsb (fun k => contains k (lower (name d))) (map lower windows_keywords))%bool devs /\
  detect_loopback_candidate "darwin" config macos_keywords devs =
  existsb (fun d => (0 <? max_input_channels d) &&
            existsb (fun k => contains k (lower (name d))) (map lower macos_keywords))%bool devs /\
  collect_candidates "windows" config devs =
  List.filter (fun s => existsb (fun k => contains k (lower (sname s)))
                          (map lower windows_keywords)) (input_summaries_of devs) /\
  collect_candidates "darwin" config devs =
  List.filter (fun s => existsb (fun k => contains k (lower (sname s)))
                          (map lower macos_keywords)) (input_summaries_of devs).
Proof.
  unfold detect_loopback_candidate, collect_candidates.
  split; [|split; [|split]].
  - apply detect_loop_keyword_only; [reflexivity| |discriminate].
    intros _. vm_compute. auto.
  - apply detect_loop_keyword_only; [reflexivity|discriminate|].
    intros _. vm_compute. auto.
  - apply List.filter_ext. intros s.
    apply collect_is_candidate_keyword_only; [reflexivity| |discriminate].
    intros _. vm_compute. auto.
  - apply List.filter_ext. intros s.
    apply collect_is_candidate_keyword_only; [reflexivity|discriminate|].
    intros _. vm_compute. auto.
Qed.

Lemma select_inputs_filter (D : list device) devs i :
  (forall d, In d devs -> existsb (device_eqb d) D = (0 <? max_input_channels d)) ->
  select_inputs D (summarise_from i devs) devs =
  List.filter (fun s => 0 <? inputs s) (summarise_from i devs).
Proof.
  revert i. induction devs as [|d ds IH]; intros i HD; [reflexivity|]. simpl.
  rewrite (HD d (or_introl eq_refl)), IH by (intros d' Hd'; apply HD; right; exact Hd').
  reflexivity.
Qed.

(** [input_summaries] keeps exactly the summaries of input-capable devices,
    in order and with their enumeration index, even when the device list
    holds equal entries (the [dev in input_devices] test compares by
    equality). *)
Theorem input_summaries_are_input_capable devs :
  input_summaries_of devs = List.filter (fun s => 0 <? inputs s) (summarise_devices devs).
Proof.
  unfold input_summaries_of, summarise_devices. apply select_inputs_filter.
  intros d Hd. apply in_input_devices. exact Hd.
Qed.

Lemma nth_error_summarise_from devs k n :
  nth_error (summarise_from k devs) n =
  option_map (fun d => mk_summary (k + n) (name d) (max_input_channels d)) (nth_error devs n).
Proof.
  revert k n. induction devs as [|d ds IH]; intros k [|n]; simpl; auto.
  - rewrite Nat.add_0_r. reflexivity.
  - rewrite IH. rewrite Nat.add_succ_r. reflexivity.
Qed.

Lemma length_summarise_from devs k : length (summarise_from k devs) = length devs.
Proof. revert k. induction devs; intros k; simpl; auto. Qed.

(** The configured device of the report is the summary of
    [devices[device_index]] whenever the index is in range, whatever its
    input channels; out of range or unset, it is [None]. *)
Theorem collect_configured_device config system devs s :
  r_configured_device (collect_audio_diagnostics config system devs) = Some s <->
  exists i d, device_index config = Some i /\ 0 <= i /\
    nth_error devs (Z.to_nat i) = Some d /\
    s = mk_summary (Z.to_nat i) (name d) (max_input_channels d).
Proof.
  unfold collect_audio_diagnostics. cbv zeta.
  match goal with |- context [match ?x with (_, _) => _ end] => destruct x end.
  cbn [r_configured_device].
  destruct (device_index config) as [i|].
  - unfold summarise_devices. rewrite length_summarise_from.
    destruct ((0 <=? i) && (i <? Z.of_nat (length devs)))%bool eqn:Hr.
    + apply andb_true_iff in Hr as [H0 H1]. apply Z.leb_le in H0. apply Z.ltb_lt in H1.
      rewrite nth_error_summarise_from. split.
      * intros Hs. destruct (nth_error devs (Z.to_nat i)) as [d|] eqn:Hn; [|discriminate].
        injection Hs as <-. exists i, d. auto.
      * intros [i' [d [Hi [_ [Hn ->]]]]]. injection Hi as <-. rewrite Hn. reflexivity.
    + split; [discriminate|]. intros [i' [d [Hi [H0 [Hn _]]]]]. injection Hi as <-.
      assert (Hlt : (Z.to_nat i < length devs)%nat)
        by (apply nth_error_Some; rewrite Hn; discriminate).
      apply andb_false_iff in Hr as [Hr|Hr];
        [apply Z.leb_gt in Hr | apply Z.ltb_ge in Hr]; lia.
  - split; [discriminate|]. intros [i [d [Hi _]]]. discriminate.
Qed.

Lemma existsb_summarise_inputs devs k :
  existsb (fun s => 0 <? inputs s) (summarise_from k devs) =
  existsb (fun d => 0 <? max_input_channels d) devs.
Proof. revert k. induction devs as [|d ds IH]; intros k; simpl; [reflexivity|]. rewrite IH. reflexivity. Qed.

Lemma input_summaries_empty devs :
  list_empty (input_summaries_of devs) =
  negb (existsb (fun d => 0 <? max_input_channels d) devs).
Proof.
  rewrite input_summaries_are_input_capable, list_empty_filter.
  unfold summarise_devices. rewrite existsb_summarise_inputs. reflexivity.
Qed.

Lemma existsb_inputs_false devs :
  existsb (fun d => 0 <? max_input_channels d) devs = false <->
  forall d, In d devs -> max_input_channels d <= 0.
Proof.
  split.
  - intros He d Hd. destruct (0 <? max_input_channels d) eqn:E.
    + assert (existsb (fun d => 0 <? max_input_channels d) devs = true)
        by (apply existsb_exists; eauto). congruence.
    + apply Z.ltb_ge in E. exact E.
  - intros H. destruct (existsb _ devs) eqn:E; [|reflexivity].
    apply existsb_exists in E as [d [Hd E]]. apply Z.ltb_lt in E.
    specialize (H d Hd). lia.
Qed.

Lemma msg_no_loopback_ne : msg_no_loopback <> msg_no_input.
Proof. discriminate. Qed.

Lemma rec_check_index_ne : rec_check_index <> rec_pin_index.
Proof. discriminate. Qed.

Lemma rec_candidates_ne x : (rec_candidates_prefix ++ x)%string <> rec_pin_index.
Proof. discriminate. Qed.

Lemma collect_issues_eq config system devs :
  r_issues (collect_audio_diagnostics config system devs) =
  (if existsb (fun d => 0 <? max_input_channels d) devs then [] else [msg_no_input]) ++
  (if (is_loopback (resolve_capture_mode config system) &&
       list_empty (collect_candidates (lower system) config devs))%bool
   then match device_index config with None => [msg_no_loopback] | Some _ => [] end
   else []).
Proof.
  unfold collect_audio_diagnostics. cbv zeta. rewrite input_summaries_empty.
  destruct (existsb _ devs), (is_loopback _), (list_empty (collect_candidates _ _ _)),
    (device_index config); reflexivity.
Qed.

Lemma collect_recommendations_eq config system devs :
  r_recommendations (collect_audio_diagnostics config system devs) =
  (match device_index config with
   | None => if existsb (fun d => 0 <? max_input_channels d) devs then [rec_pin_index] else []
   | Some _ => [] end) ++
  (if (is_loopback (resolve_capture_mode config system) &&
       list_empty (collect_candidates (lower system) config devs))%bool
   then match device_index config with None => [] | Some _ => [rec_check_index] end
   else []) ++
  (if (is_loopback (resolve_capture_mode config system) &&
       negb (list_empty (collect_candidates (lower system) config devs)))%bool
   then [(rec_candidates_prefix ++
          join_comma (map sname (firstn 3 (collect_candidates (lower system) config devs))))%string]
   else []).
Proof.
  unfold collect_audio_diagnostics. cbv zeta. rewrite input_summaries_empty.
  destruct (existsb _ devs), (is_loopback _), (list_empty (collect_candidates _ _ _)),
    (device_index config); simpl; rewrite ?app_nil_r; reflexivity.
Qed.

(** The report's issue and recommendation lists follow fixed rules: the
    no-input issue appears exactly when no device has input channels, the
    "pin AUDIO_DEVICE_INDEX" recommendation exactly when no index is set
    and some device has input channels, and outside loopback mode these are
    the only entries. *)
Theorem collect_issue_and_pin_rules config system devs :
  (In msg_no_input (r_issues (collect_audio_diagnostics config system devs)) <->
   forall d, In d devs -> max_input_channels d <= 0) /\
  (In rec_pin_index (r_recommendations (collect_audio_diagnostics config system devs)) <->
   device_index config = None /\ exists d, In d devs /\ 0 < max_input_channels d) /\
  (resolve_capture_mode config system <> LOOPBACK ->
   incl (r_issues (collect_audio_diagnostics config system devs)) [msg_no_input] /\
   incl (r_recommendations (collect_audio_diagnostics config system devs)) [rec_pin_index]).
Proof.
  rewrite collect_issues_eq, collect_recommendations_eq.
  pose proof (existsb_inputs_false devs) as Hx.
  assert (Hloop : resolve_capture_mode config system <> LOOPBACK ->
                  is_loopback (resolve_capture_mode config system) = false)
    by (destruct (resolve_capture_mode config system); simpl; congruence).
  remember (is_loopback (resolve_capture_mode config system)) as lp eqn:Elp.
  remember (list_empty (collect_candidates (lower system) config devs)) as em eqn:Eem.
  remember (existsb (fun d => 0 <? max_input_channels d) devs) as ex eqn:Eex.
  split; [|split].
  - rewrite in_app_iff. rewrite <- Hx.
    destruct ex; simpl.
    + split; [|discriminate]. intros [[]|H].
      destruct (lp && em)%bool; [|destruct H].
      destruct (device_index config); [destruct H|].
      destruct H as [H|[]]. exfalso. exact (msg_no_loopback_ne H).
    + split; [reflexivity|intros _; left; left; reflexivity].
  - rewrite !in_app_iff.
    destruct (device_index config) as [i|].
    + split; [|intros [H _]; discriminate].
      intros [[]|[H|H]].
      * destruct (lp && em)%bool; [|destruct H]. destruct H as [H|[]].
        exfalso. exact (rec_check_index_ne H).
      * destruct (lp && negb em)%bool; [|destruct H]. destruct H as [H|[]].
        exfalso. exact (rec_candidates_ne _ H).
    + destruct ex.
      * split; [intros _; split; [reflexivity|]|intros _; left; left; reflexivity].
        symmetry in Eex. apply existsb_exists in Eex as [d [Hd E]]. apply Z.ltb_lt in E. eauto.
      * split.
        -- intros [[]|[H|H]].
           ++ destruct (lp && em)%bool; destruct H.
           ++ destruct (lp && negb em)%bool; [|destruct H]. destruct H as [H|[]].
              exfalso. exact (rec_candidates_ne _ H).
        -- intros [_ [d [Hd Hp]]]. pose proof (proj1 Hx eq_refl d Hd). lia.
  - intros Hm. rewrite (Hloop Hm). cbn [andb]. rewrite !app_nil_r.
    split; intros x Hin.
    + destruct ex; [destruct Hin|exact Hin].
    + destruct (device_index config); [destruct Hin|].
      destruct ex; [exact Hin|destruct Hin].
Qed.

Lemma str_app_cons c (s t : string) : (String c s ++ t)%string = String c (s ++ t).
Proof. reflexivity. Qed.

Lemma str_app_nil (t : string) : ("" ++ t)%string = t.
Proof. reflexivity. Qed.

Lemma str_app_empty_r (s : string) : (s ++ "")%string = s.
Proof. induction s as [|a s IH]; [reflexivity|]. rewrite str_app_cons, IH. reflexivity. Qed.

Lemma str_app_snoc (a l : string) c :
  ((a ++ String c "") ++ l)%string = (a ++ String c l)%string.
Proof. induction a as [|a0 a IH]; [reflexivity|]. rewrite !str_app_cons, IH. reflexivity. Qed.

Lemma splitlines_go_plain c t cur :
  (byte c =? 13)%nat = false -> break1 c = false ->
  match t with
  | String c2 t2 =>
      break2 c c2 = false /\
      match t2 with String c3 _ => break3 c c2 c3 = false | EmptyString => True end
  | EmptyString => True
  end ->
  splitlines_go (String c t) cur = splitlines_go t (cur ++ String c "").
Proof.
  intros H13 H1 Ht. simpl. rewrite H13, H1.
  destruct t as [|c2 t2]; [reflexivity|]. destruct Ht as [H2 Ht]. rewrite H2.
  destruct t2 as [|c3 t3]; [reflexivity|]. rewrite Ht. reflexivity.
Qed.

Ltac byte_cases :=
  unfold break2, break3;
  repeat match goal with
         | |- context [(byte ?v =? ?n)%nat] => is_var v; destruct (byte v =? n)%nat
         end; reflexivity.

Lemma splitlines_go_line l rest cur :
  line_free l = true ->
  splitlines_go (l ++ String LF rest) cur = (cur ++ l)%string :: splitlines_go rest "".
Proof.
  revert cur. induction l as [|c l IH]; intros cur Hl.
  - rewrite str_app_nil, str_app_empty_r. reflexivity.
  - cbn [line_free] in Hl. destruct ((byte c =? 13)%nat || break1 c)%bool eqn:Hb; [discriminate|].
    apply orb_false_iff in Hb as [H13 H1].
    assert (Ht : match (l ++ String LF rest)%string with
                 | String c2 t2 =>
                     break2 c c2 = false /\
                     match t2 with String c3 _ => break3 c c2 c3 = false | EmptyString => True end
                 | EmptyString => True
                 end).
    { destruct l as [|c2 [|c3 l3]].
      - rewrite str_app_nil. split; [byte_cases|]. destruct rest; [exact I|byte_cases].
      - rewrite str_app_cons, str_app_nil.
        apply andb_true_iff in Hl as [Hl _]. apply andb_true_iff in Hl as [Hl _].
        apply negb_true_iff in Hl. split; [exact Hl|byte_cases].
      - rewrite !str_app_cons.
        apply andb_true_iff in Hl as [Hl _]. apply andb_true_iff in Hl as [Hl Hl3].
        apply negb_true_iff in Hl. apply negb_true_iff in Hl3. split; assumption. }
    rewrite str_app_cons, (splitlines_go_plain c _ cur H13 H1 Ht).
    rewrite IH, str_app_snoc; [reflexivity|].
    destruct l as [|c2 l2]; [reflexivity|].
    apply andb_true_iff in Hl as [_ Hl]. exact Hl.
Qed.

Lemma splitlines_join ls :
  Forall (fun l => line_free l = true) ls -> splitlines (join_lines ls) = ls.
Proof.
  unfold splitlines. induction 1 as [|l ls Hl _ IH]; [reflexivity|].
  change (join_lines (l :: ls)) with (l ++ String LF (join_lines ls))%string.
  rewrite splitlines_go_line by exact Hl. rewrite IH. reflexivity.
Qed.

Lemma line_free_app_plain p s :
  forallb plain (list_ascii_of_string p) = true -> line_free (p ++ s) = line_free s.
Proof.
  induction p as [|c p IH]; intros Hp; [reflexivity|].
  simpl in Hp. apply andb_true_iff in Hp as [Hc Hp].
  unfold plain in Hc. apply andb_true_iff in Hc as [Hc H1]. apply negb_true_iff in H1.
  apply Nat.ltb_lt in Hc.
  assert (H13 : (byte c =? 13)%nat = false).
  { unfold break1 in H1. destruct (byte c =? 13)%nat; [|reflexivity].
    rewrite !orb_true_r in H1. discriminate. }
  assert (H2 : forall c2, break2 c c2 = false).
  { intros c2. unfold break2. replace (byte c =? 194)%nat with false
      by (symmetry; apply Nat.eqb_neq; lia). reflexivity. }
  assert (H3 : forall c2 c3, break3 c c2 c3 = false).
  { intros c2 c3. unfold break3. replace (byte c =? 226)%nat with false
      by (symmetry; apply Nat.eqb_neq; lia). reflexivity. }
  rewrite str_app_cons. cbn [line_free]. rewrite H13, H1. simpl orb. rewrite <- (IH Hp).
  destruct (p ++ s)%string as [|c2 [|c3 t]]; rewrite ?H2, ?H3; reflexivity.
Qed.

Lemma after_colon_label (p t : string) :
  after_colon p = Some ""%string -> after_colon (p ++ t) = Some t.
Proof.
  induction p as [|c p IH]; intros Hp; [discriminate|].
  rewrite str_app_cons. cbn [after_colon] in *.
  destruct (Ascii.eqb c ":"); [injection Hp as ->; reflexivity|]. apply IH, Hp.
Qed.

Lemma default_value_label (p t : string) :
  after_colon p = Some ""%string -> default_value (p ++ t) = or_none (strip t).
Proof. intros Hp. unfold default_value. rewrite (after_colon_label p t Hp). reflexivity. Qed.

Lemma scan_skip (pre : list string) acc :
  Forall (fun l => String.prefix "Default Sink:" l = false /\
                   String.prefix "Default Source:" l = false) pre ->
  fold_left (fun acc line =>
    let '(sink, source) := acc in
    if String.prefix "Default Sink:" line then (default_value line, source)
    else if String.prefix "Default Source:" line then (sink, default_value line)
    else (sink, source)) pre acc = acc.
Proof.
  intros H. revert acc. induction H as [|l pre [H1 H2] _ IH]; intros [a b]; [reflexivity|].
  cbn [fold_left]. rewrite H1, H2. apply IH.
Qed.

(** Capturing the defaults from [pactl info] and restoring them gives back
    the stripped sink and source names, whatever other lines (without a
    line boundary and not starting with either label) surround the two
    default lines: [_capture_linux_defaults] followed by
    [_restore_linux_defaults] sets exactly the defaults that were read. *)
Theorem capture_restore_round_trip pre mid post sink_raw source_raw sink source :
  Forall (fun l => line_free l = true /\ String.prefix "Default Sink:" l = false /\
                   String.prefix "Default Source:" l = false) (pre ++ mid ++ post) ->
  line_free sink_raw = true -> line_free source_raw = true ->
  strip sink_raw = sink -> strip source_raw = source ->
  sink <> ""%string -> source <> ""%string ->
  capture_linux_defaults (Some (pactl_info_text pre sink_raw mid source_raw post)) =
    Some (Some sink, Some source) /\
  restore_linux_defaults
    (capture_linux_defaults (Some (pactl_info_text pre sink_raw mid source_raw post))) =
  [PactlSetDefaultSink sink; PactlSetDefaultSource source].
Proof.
  intros Hall Hlk Hlc Hsk Hsc Hk Hc.
  apply Forall_app in Hall as [Hpre Hall]. apply Forall_app in Hall as [Hmid Hpost].
  assert (Hfree : forall ls, Forall (fun l => line_free l = true /\
                     String.prefix "Default Sink:" l = false /\
                     String.prefix "Default Source:" l = false) ls ->
                  Forall (fun l => line_free l = true) ls)
    by (intros ls H; eapply Forall_impl; [exact H|]; intros l [H' _]; exact H').
  assert (Hskip : forall ls, Forall (fun l => line_free l = true /\
                     String.prefix "Default Sink:" l = false /\
                     String.prefix "Default Source:" l = false) ls ->
                  Forall (fun l => String.prefix "Default Sink:" l = false /\
                     String.prefix "Default Source:" l = false) ls)
    by (intros ls H; eapply Forall_impl; [exact H|]; intros l [_ H']; exact H').
  assert (Hcap : capture_linux_defaults (Some (pactl_info_text pre sink_raw mid source_raw post)) =
                 Some (Some sink, Some source)).
  { unfold capture_linux_defaults, scan_defaults, pactl_info_text.
    rewrite splitlines_join.
    2:{ apply Forall_app. split; [apply Hfree, Hpre|].
        constructor; [rewrite line_free_app_plain by reflexivity; exact Hlk|].
        apply Forall_app. split; [apply Hfree, Hmid|].
        constructor; [rewrite line_free_app_plain by reflexivity; exact Hlc|].
        apply Hfree, Hpost. }
    rewrite fold_left_app, (scan_skip pre) by (apply Hskip, Hpre).
    cbn [fold_left].
    assert (E1 : forall t, String.prefix "Default Sink:" ("Default Sink:" ++ t) = true)
      by (intros [|c t]; reflexivity).
    assert (E2 : forall t, String.prefix "Default Sink:" ("Default Source:" ++ t) = false)
      by (intros [|c t]; reflexivity).
    assert (E3 : forall t, String.prefix "Default Source:" ("Default Source:" ++ t) = true)
      by (intros [|c t]; reflexivity).
    rewrite E1, fold_left_app, (scan_skip mid) by (apply Hskip, Hmid).
    cbn [fold_left]. rewrite E2, E3, (scan_skip post) by (apply Hskip, Hpost).
    rewrite !default_value_label by reflexivity. rewrite Hsk, Hsc.
    unfold or_none. apply String.eqb_neq in Hk, Hc. rewrite Hk, Hc.
    cbn [truthy]. rewrite Hk. reflexivity. }
  split; [exact Hcap|]. rewrite Hcap. cbn [restore_linux_defaults truthy].
  apply String.eqb_neq in Hk, Hc. rewrite Hk, Hc. reflexivity.
Qed.

Lemma capture_restore_round_trip_witness :
  capture_linux_defaults (Some (pactl_info_text
     ["Server String: /run/user/1000/pulse/native"; "Server Name: PulseAudio (on PipeWire 1.0.5)";
      "Default Channel Map: front-left,front-right"]
     " alsa_output.pci-0000_00_1f.3.analog-stereo" []
     " alsa_input.pci-0000_00_1f.3.analog-stereo" ["Cookie: 8a1c:3f2e"])) =
  Some (Some "alsa_output.pci-0000_00_1f.3.analog-stereo",
        Some "alsa_input.pci-0000_00_1f.3.analog-stereo")%string /\
  restore_linux_defaults (capture_linux_defaults (Some (pactl_info_text
     ["Server String: /run/user/1000/pulse/native"; "Server Name: PulseAudio (on PipeWire 1.0.5)";
      "Default Channel Map: front-left,front-right"]
     " alsa_output.pci-0000_00_1f.3.analog-stereo" []
     " alsa_input.pci-0000_00_1f.3.analog-stereo" ["Cookie: 8a1c:3f2e"]))) =
  [PactlSetDefaultSink "alsa_output.pci-0000_00_1f.3.analog-stereo";
   PactlSetDefaultSource "alsa_input.pci-0000_00_1f.3.analog-stereo"].
Proof.
  apply capture_restore_round_trip;
    [repeat constructor | vm_compute; reflexivity | vm_compute; reflexivity
    | vm_compute; reflexivity | vm_compute; reflexivity | discriminate | discriminate].
Defined.

(** [_ensure_linux_physical_defaults] only ever switches the default sink
    to a listed sink without "codex_transcribe" in its name, and the
    default source to a listed source with neither ".monitor" nor
    "codex_transcribe"; it issues at most one command of each kind, and
    none at all when the current defaults are not the transcriber's
    virtual devices or monitors. *)
Theorem ensure_physical_defaults_targets_physical info sinks_output sources_output :
  (forall c, In c (ensure_linux_physical_defaults info sinks_output sources_output) ->
   (exists n, c = PactlSetDefaultSink n /\ In n (list_linux_devices sinks_output) /\
              contains "codex_transcribe" n = false) \/
   (exists n, c = PactlSetDefaultSource n /\ In n (list_linux_devices sources_output) /\
              contains ".monitor" n = false /\ contains "codex_transcribe" n = false)) /\
  (length (ensure_linux_physical_defaults info sinks_output sources_output) <= 2)%nat /\
  (forall out, info = Some out ->
   (forall cs, fst (scan_defaults out) = Some cs -> contains "codex_transcribe" cs = false) ->
   (forall cs, snd (scan_defaults out) = Some cs ->
      contains "codex_transcribe" cs = false /\ endswith ".monitor" cs = false) ->
   ensure_linux_physical_defaults info sinks_output sources_output = []).
Proof.
  unfold ensure_linux_physical_defaults.
  split; [|split].
  - intros c Hc. destruct info as [out|]; [|destruct Hc].
    destruct (scan_defaults out) as [cs ss].
    apply in_app_iff in Hc as [Hc|Hc].
    + left. destruct cs as [cs|]; [|destruct Hc].
      destruct (List.filter _ (list_linux_devices sinks_output)) as [|p ps] eqn:Hf;
        [destruct Hc|].
      destruct (_ && _)%bool; [|destruct Hc]. destruct Hc as [<-|[]].
      assert (Hp : In p (List.filter (fun n => negb (contains "codex_transcribe" n))
                          (list_linux_devices sinks_output))) by (rewrite Hf; left; reflexivity).
      apply filter_In in Hp as [Hin Hn]. apply negb_true_iff in Hn. eauto.
    + right. destruct ss as [ss|]; [|destruct Hc].
      destruct (_ && _)%bool; [|destruct Hc].
      destruct (List.filter _ (list_linux_devices sources_output)) as [|p ps] eqn:Hf;
        [destruct Hc|].
      destruct Hc as [<-|[]].
      assert (Hp : In p (List.filter (fun n => negb (contains ".monitor" n) &&
                                               negb (contains "codex_transcribe" n))%bool
                          (list_linux_devices sources_output))) by (rewrite Hf; left; reflexivity).
      apply filter_In in Hp as [Hin Hn]. apply andb_true_iff in Hn as [H1 H2].
      apply negb_true_iff in H1, H2. eauto.
  - destruct info as [out|]; [|simpl; lia].
    destruct (scan_defaults out) as [cs ss].
    set (ps := List.filter _ (list_linux_devices sinks_output)).
    set (qs := List.filter _ (list_linux_devices sources_output)).
    destruct cs, ps, ss, qs; simpl;
      repeat match goal with |- context [if ?b then _ else _] => destruct b end;
      simpl; lia.
  - intros out -> Hk Hs. destruct (scan_defaults out) as [cs ss]. simpl in Hk, Hs.
    destruct cs as [cs|].
    + rewrite (Hk cs eq_refl), andb_false_r. destruct (List.filter (A:=string) _ _); simpl.
      * destruct ss as [ss|]; [|reflexivity].
        destruct (Hs ss eq_refl) as [-> ->]. rewrite andb_false_r. reflexivity.
      * destruct ss as [ss|]; [|reflexivity].
        destruct (Hs ss eq_refl) as [-> ->]. rewrite andb_false_r. reflexivity.
    + simpl. destruct ss as [ss|]; [|reflexivity].
      destruct (Hs ss eq_refl) as [-> ->]. rewrite andb_false_r. reflexivity.
Qed.


Lemma module_line_cons kind idx line f0 f1 fs :
  split_tab line = f0 :: f1 :: fs ->
  module_line kind idx line <-> strip f0 = idx /\ strip f1 = kind.
Proof.
  intros Hs. unfold module_line. rewrite Hs. split.
  - intros [g0 [g1 [gs [Hg [H0 H1]]]]]. injection Hg as <- <- <-. split; assumption.
  - intros [H0 H1]. exists f0, f1, fs. repeat split; assumption.
Qed.

Lemma module_line_short kind idx line :
  (length (split_tab line) < 2)%nat -> ~ module_line kind idx line.
Proof.
  intros Hl [f0 [f1 [fs [Hs _]]]]. rewrite Hs in Hl. simpl in Hl. lia.
Qed.

Lemma snapshot_step_spec acc line idx :
  (idx ∈ null (snapshot_step acc line) <->
   idx ∈ null acc \/ module_line "module-null-sink" idx line) /\
  (idx ∈ loop (snapshot_step acc line) <->
   idx ∈ loop acc \/ module_line "module-loopback" idx line).
Proof.
  unfold snapshot_step.
  destruct (split_tab line) as [|f0 [|f1 fs]] eqn:Hs.
  1,2: assert (Hshort : forall kind, ~ module_line kind idx line)
         by (intros kind; apply module_line_short; rewrite Hs; simpl; lia);
       split; split; [left; exact H | intros [H|H]; [exact H|destruct (Hshort _ H)]
                     |left; exact H | intros [H|H]; [exact H|destruct (Hshort _ H)]].
  rewrite !(module_line_cons _ _ _ _ _ _ Hs).
  destruct (String.eqb_spec (strip f1) "module-null-sink") as [En|En];
    [|destruct (String.eqb_spec (strip f1) "module-loopback") as [El|El]];
    cbn [null loop]; rewrite ?elem_of_union, ?elem_of_singleton.
  - rewrite En. split.
    + split; [intros [->|H]; auto|intros [H|[<- _]]; auto].
    + split; [auto|intros [H|[_ H]]; [exact H|discriminate]].
  - rewrite El. split.
    + split; [auto|intros [H|[_ H]]; [exact H|discriminate]].
    + split; [intros [->|H]; auto|intros [H|[<- _]]; auto].
  - split; split; [auto|intros [H|[_ H]]; [exact H|congruence]
                  |auto|intros [H|[_ H]]; [exact H|congruence]].
Qed.

Lemma snapshot_fold lines acc idx :
  (idx ∈ null (fold_left snapshot_step lines acc) <->
   idx ∈ null acc \/ exists line, In line lines /\ module_line "module-null-sink" idx line) /\
  (idx ∈ loop (fold_left snapshot_step lines acc) <->
   idx ∈ loop acc \/ exists line, In line lines /\ module_line "module-loopback" idx line).
Proof.
  revert acc. induction lines as [|l ls IH]; intros acc.
  - simpl. split; split; [auto|intros [H|[? [[] _]]]; exact H|auto|intros [H|[? [[] _]]]; exact H].
  - cbn [fold_left]. destruct (IH (snapshot_step acc l)) as [IHn IHl].
    destruct (snapshot_step_spec acc l idx) as [Sn Sl].
    rewrite IHn, IHl, Sn, Sl. clear.
    split; split.
    1,3: intros [[H|H]|[x [Hx H]]]; [left; exact H|right; exists l; split; [left|]; auto
                                   |right; exists x; split; [right|]; auto].
    all: intros [H|[x [[<-|Hx] H]]]; [left; left; exact H|left; right; exact H
                                    |right; exists x; auto].
Qed.

(** [_snapshot_linux_modules] records exactly the module indices listed
    with the names "module-null-sink" and "module-loopback" (fields
    stripped), and nothing when [pactl] fails. *)
Theorem snapshot_linux_modules_members output idx :
  (idx ∈ null (snapshot_linux_modules output) <->
   exists out line, output = Some out /\ In line (splitlines out) /\
                    module_line "module-null-sink" idx line) /\
  (idx ∈ loop (snapshot_linux_modules output) <->
   exists out line, output = Some out /\ In line (splitlines out) /\
                    module_line "module-loopback" idx line).
Proof.
  destruct output as [out|].
  - unfold snapshot_linux_modules. destruct (snapshot_fold (splitlines out) (mk_modules ∅ ∅) idx)
      as [Hn Hl]. rewrite Hn, Hl. cbn [null loop].
    split; split.
    1,3: intros [H|[line [Hin H]]]; [set_solver|exists out, line; auto].
    all: intros [o [line [Ho [Hin H]]]]; injection Ho as <-; right; eauto.
  - cbn. split; split; [set_solver|intros [? [? [H _]]]; discriminate
                       |set_solver|intros [? [? [H _]]]; discriminate].
Qed.

Lemma restore_no_unload d m : ~ In (PactlUnloadModule m) (restore_linux_defaults d).
Proof.
  destruct d as [[sink source]|]; [|simpl; tauto]. unfold restore_linux_defaults.
  rewrite in_app_iff. destruct (truthy sink), (truthy source); simpl; intuition discriminate.
Qed.

Lemma unload_in set_iter mods m :
  In (PactlUnloadModule m) (unload_linux_modules set_iter mods) <->
  In m (set_iter (loop mods)) \/ In m (set_iter (null mods)).
Proof.
  unfold unload_linux_modules. rewrite in_app_iff, !in_map_iff.
  split; (intros [[x [Hx Hin]]|[x [Hx Hin]]] || intros [H|H]).
  all: try (injection Hx as ->); eauto.
Qed.

Lemma launch_phase_unload set_iter system defaults mods start pipeline environ m :
  In (PactlUnloadModule m)
     (snd (launch_phase set_iter system defaults mods start pipeline environ)) ->
  In m (set_iter (loop mods)) \/ In m (set_iter (null mods)).
Proof.
  unfold launch_phase.
  destruct (string_in start _); [destruct (set_run_hints _ _ _) as [[hp lp] env];
                                 destruct (pipeline env) as [env' oc]|];
  destruct (String.eqb system "linux"); simpl;
  rewrite ?in_app_iff; intros H; repeat destruct H as [H|H];
  try (exfalso; exact (restore_no_unload _ _ H));
  try (apply unload_in; exact H); try discriminate; destruct H.
Qed.

Section EasyStart.
Variable set_iter : gset string -> list string.
Hypothesis set_iter_elements : forall X x, In x (set_iter X) <-> x ∈ X.

Lemma launch_no_modules system defaults start pipeline environ m :
  ~ In (PactlUnloadModule m)
      (snd (launch_phase set_iter system defaults no_modules start pipeline environ)).
Proof.
  intros H. apply launch_phase_unload in H.
  rewrite !set_iter_elements in H. cbn in H. set_solver.
Qed.
End EasyStart.

(** Every module [run_easy_start] unloads was created by the helper
    script: it ran, and the module is listed in the snapshot taken after it
    and absent, with the same kind, from the one taken before. *)
Theorem easy_start_unloads_only_new_modules set_iter e interactive pipeline environ m :
  (forall X x, In x (set_iter X) <-> x ∈ X) ->
  In (PactlUnloadModule m) (er_calls (run_easy_start set_iter e interactive pipeline environ)) ->
  er_script_ran (run_easy_start set_iter e interactive pipeline environ) = true /\
  es_system e = "linux"%string /\
  ((m ∈ null (snapshot_linux_modules (es_modules_after e)) /\
    m ∉ null (snapshot_linux_modules (es_modules_before e))) \/
   (m ∈ loop (snapshot_linux_modules (es_modules_after e)) /\
    m ∉ loop (snapshot_linux_modules (es_modules_before e)))).
Proof.
  intros Hset. unfold run_easy_start.
  destruct (es_ready e); [|simpl; tauto]. destruct (es_diagnostics_ok e); [|simpl; tauto].
  cbn [negb].
  destruct interactive; cbn [negb].
  2:{ simpl. rewrite in_app_iff. intros [H|H]; [destruct (restore_no_unload _ _ H) |].
      destruct (String.eqb _ _) in H; simpl in H; intuition discriminate. }
  assert (Hlaunch : forall d mods b,
    In (PactlUnloadModule m)
      (er_calls (let '(environ', oc, calls) :=
         launch_phase set_iter (es_system e) d mods (es_start e) pipeline environ in
       mk_result (match oc with Some Raised | Some Cancelled => None | _ => Some true end)
         b oc environ' calls)) ->
    In (PactlUnloadModule m)
      (snd (launch_phase set_iter (es_system e) d mods (es_start e) pipeline environ)) /\
    er_script_ran (let '(environ', oc, calls) :=
         launch_phase set_iter (es_system e) d mods (es_start e) pipeline environ in
       mk_result (match oc with Some Raised | Some Cancelled => None | _ => Some true end)
         b oc environ' calls) = b).
  { intros d mods b. destruct (launch_phase _ _ _ _ _ _ _) as [[env oc] calls]. simpl. auto. }
  destruct (string_in (es_system e) _ && es_script_exists e)%bool.
  2:{ intros H. apply Hlaunch in H as [H _]. exfalso. exact (launch_no_modules set_iter Hset _ _ _ _ _ _ H). }
  destruct (string_in (es_answer e) _).
  2:{ intros H. apply Hlaunch in H as [H _]. exfalso. exact (launch_no_modules set_iter Hset _ _ _ _ _ _ H). }
  destruct (String.eqb_spec (es_system e) "linux") as [Hl|Hl].
  - assert (Hdiff : In m (set_iter (loop (diff_modules (snapshot_linux_modules (es_modules_before e))
                                               (snapshot_linux_modules (es_modules_after e))))) \/
                    In m (set_iter (null (diff_modules (snapshot_linux_modules (es_modules_before e))
                                               (snapshot_linux_modules (es_modules_after e))))) ->
                    (m ∈ null (snapshot_linux_modules (es_modules_after e)) /\
                     m ∉ null (snapshot_linux_modules (es_modules_before e))) \/
                    (m ∈ loop (snapshot_linux_modules (es_modules_after e)) /\
                     m ∉ loop (snapshot_linux_modules (es_modules_before e)))).
    { rewrite !Hset. unfold diff_modules. cbn [null loop].
      rewrite !elem_of_difference. tauto. }
    destruct (es_script_ok e).
    + intros H. apply Hlaunch in H as [H Hran]. split; [exact Hran|]. split; [exact Hl|].
      apply Hdiff. exact (launch_phase_unload _ _ _ _ _ _ _ _ H).
    + cbn [er_calls er_script_ran default]. rewrite in_app_iff.
      intros [H|H]; [destruct (restore_no_unload _ _ H)|].
      split; [reflexivity|]. split; [exact Hl|]. apply Hdiff. apply unload_in. exact H.
  - destruct (es_script_ok e).
    + intros H. apply Hlaunch in H as [H _]. exfalso.
      exact (launch_no_modules set_iter Hset _ _ _ _ _ _ H).
    + cbn [er_calls]. rewrite in_app_iff.
      intros [H|[]]. exfalso. exact (restore_no_unload _ _ H).
Qed.

Lemma elements_enumerates (X : gset string) x : In x (elements X) <-> x ∈ X.
Proof. rewrite <- list_elem_of_In. apply elem_of_elements. Qed.

Lemma easy_start_unloads_only_new_modules_witness :
  In (PactlUnloadModule "7")
     (er_calls (run_easy_start elements sample_easy_start true completing_run ∅)) /\
  er_script_ran (run_easy_start elements sample_easy_start true completing_run ∅) = true /\
  es_system sample_easy_start = "linux"%string /\
  (("7"%string ∈ null (snapshot_linux_modules (es_modules_after sample_easy_start)) /\
    "7"%string ∉ null (snapshot_linux_modules (es_modules_before sample_easy_start))) \/
   ("7"%string ∈ loop (snapshot_linux_modules (es_modules_after sample_easy_start)) /\
    "7"%string ∉ loop (snapshot_linux_modules (es_modules_before sample_easy_start)))).
Proof.
  assert (H : In (PactlUnloadModule "7")
     (er_calls (run_easy_start elements sample_easy_start true completing_run ∅)))
    by (vm_compute; auto).
  exact (conj H (easy_start_unloads_only_new_modules elements sample_easy_start true
                   completing_run ∅ "7" elements_enumerates H)).
Defined.

Lemma launch_result set_iter system d mods start pipeline environ b :
  let r := let '(environ', oc, calls) :=
             launch_phase set_iter system d mods start pipeline environ in
           mk_result (match oc with Some Raised | Some Cancelled => None | _ => Some true end)
             b oc environ' calls in
  er_script_ran r = b /\
  er_returned r <> Some false /\
  (er_returned r = None -> er_pipeline r = Some Raised \/ er_pipeline r = Some Cancelled) /\
  (er_pipeline r <> None -> string_in start [""; "y"; "yes"]%string = true) /\
  er_calls r = snd (launch_phase set_iter system d mods start pipeline environ).
Proof.
  unfold launch_phase.
  destruct (string_in start _) eqn:Hs;
    [destruct (set_run_hints _ _ _) as [[hp lp] env]; destruct (pipeline env) as [env' oc]|];
    destruct (String.eqb system "linux"); cbn;
    [destruct oc| destruct oc | |]; repeat split; try discriminate; auto;
    intros; try discriminate; tauto.
Qed.

(** The pipeline is launched only after the environment check and the
    diagnostics passed, in an interactive run whose start answer is empty,
    "y" or "yes", and never after a failed helper script; [False] is
    returned only before a launch, when a check fails or the script fails. *)
Theorem easy_start_gates set_iter e interactive pipeline environ :
  (er_pipeline (run_easy_start set_iter e interactive pipeline environ) <> None ->
   es_ready e = true /\ es_diagnostics_ok e = true /\ interactive = true /\
   string_in (es_start e) [""; "y"; "yes"]%string = true /\
   (er_script_ran (run_easy_start set_iter e interactive pipeline environ) = true ->
    es_script_ok e = true)) /\
  (er_returned (run_easy_start set_iter e interactive pipeline environ) = Some false ->
   er_pipeline (run_easy_start set_iter e interactive pipeline environ) = None /\
   (es_ready e = false \/ es_diagnostics_ok e = false \/
    (er_script_ran (run_easy_start set_iter e interactive pipeline environ) = true /\
     es_script_ok e = false))).
Proof.
  unfold run_easy_start.
  destruct (es_ready e) eqn:Hr; [|cbn; split; [tauto|auto]].
  destruct (es_diagnostics_ok e) eqn:Hd; [|cbn; split; [tauto|auto]].
  destruct interactive; cbn [negb];
    [|cbn; split; [tauto|discriminate]].
  match goal with
  | |- context [if (?a && ?b)%bool then _ else _] => destruct (a && b)%bool
  end.
  - destruct (string_in (es_answer e) _).
    + destruct (es_script_ok e) eqn:Hok.
      * match goal with |- context [launch_phase ?si ?sy ?d ?m ?st ?p ?en] =>
          destruct (launch_result si sy d m st p en true) as (R1 & R2 & R3 & R4 & _) end.
        repeat split; auto; try (intros H0; apply R4; exact H0); try congruence;
          try (intros H0; exact (R3 H0)).
      * cbn. split; [tauto|auto].
    + match goal with |- context [launch_phase ?si ?sy ?d ?m ?st ?p ?en] =>
        destruct (launch_result si sy d m st p en false) as (R1 & R2 & R3 & R4 & _) end.
      repeat split; auto; try (intros H0; apply R4; exact H0); try congruence;
        try (intros H0; exact (R3 H0)).
  - match goal with |- context [launch_phase ?si ?sy ?d ?m ?st ?p ?en] =>
      destruct (launch_result si sy d m st p en false) as (R1 & R2 & R3 & R4 & _) end.
    repeat split; auto; try (intros H0; apply R4; exact H0); try congruence;
      try (intros H0; exact (R3 H0)).
Qed.

(** Declining the helper script undoes nothing: whatever happens next, the
    run issues no set-default or unload command, only the final check of
    the physical defaults on Linux, and the script does not run. *)
Theorem easy_start_declined_script_touches_nothing set_iter e pipeline environ :
  (forall X x, In x (set_iter X) <-> x ∈ X) ->
  es_ready e = true -> es_diagnostics_ok e = true ->
  string_in (es_system e) ["linux"; "darwin"; "windows"]%string = true ->
  es_script_exists e = true ->
  string_in (es_answer e) ["y"; "yes"]%string = false ->
  er_script_ran (run_easy_start set_iter e true pipeline environ) = false /\
  (forall c, In c (er_calls (run_easy_start set_iter e true pipeline environ)) ->
   c = EnsurePhysicalDefaults).
Proof.
  intros Hset Hr Hd Hs Hex Ha. unfold run_easy_start.
  rewrite Hr, Hd, Hs, Hex, Ha. cbn [negb andb].
  destruct (launch_result set_iter (es_system e) None no_modules (es_start e) pipeline environ false)
    as (R1 & _ & _ & _ & R5).
  split; [exact R1|]. rewrite R5. intros c Hc.
  assert (Hnone : set_iter ∅ = []).
  { destruct (set_iter ∅) as [|x xs] eqn:E; [reflexivity|].
    exfalso. assert (Hx : In x (set_iter ∅)) by (rewrite E; left; reflexivity).
    apply Hset in Hx. set_solver. }
  unfold launch_phase in Hc.
  destruct (string_in (es_start e) _);
    [destruct (set_run_hints _ _ _) as [[hp lp] env]; destruct (pipeline env) as [env' oc]|];
    destruct (String.eqb (es_system e) "linux"); cbn in Hc;
    unfold unload_linux_modules in Hc; cbn [no_modules null loop] in Hc; rewrite ?Hnone in Hc;
    cbn in Hc; intuition.
Qed.

Lemma easy_start_declined_script_touches_nothing_witness :
  er_script_ran (run_easy_start elements
    (mk_easy true true "linux" true "n" true "y" None None None) true completing_run ∅) = false /\
  (forall c, In c (er_calls (run_easy_start elements
    (mk_easy true true "linux" true "n" true "y" None None None) true completing_run ∅)) ->
   c = EnsurePhysicalDefaults).
Proof.
  exact (easy_start_declined_script_touches_nothing elements
    (mk_easy true true "linux" true "n" true "y" None None None) completing_run ∅
    elements_enumerates eq_refl eq_refl eq_refl eq_refl eq_refl).
Defined.

(** A non-interactive [run_easy_start] never runs the helper script, never
    launches the pipeline and leaves the environment untouched; it returns
    [True] exactly when the ready check and the diagnostics pass, and its
    only audio-server commands restore the captured defaults or re-check the
    physical defaults (no module is unloaded). *)
Theorem easy_start_noninteractive set_iter e pipeline environ :
  er_script_ran (run_easy_start set_iter e false pipeline environ) = false /\
  er_pipeline (run_easy_start set_iter e false pipeline environ) = None /\
  er_environ (run_easy_start set_iter e false pipeline environ) = environ /\
  er_returned (run_easy_start set_iter e false pipeline environ) =
    Some (es_ready e && es_diagnostics_ok e)%bool /\
  (forall c, In c (er_calls (run_easy_start set_iter e false pipeline environ)) ->
     c = EnsurePhysicalDefaults \/
     In c (restore_linux_defaults (capture_linux_defaults (es_pactl_info e)))).
Proof.
  unfold run_easy_start.
  destruct (es_ready e), (es_diagnostics_ok e); cbn -[capture_linux_defaults restore_linux_defaults];
    repeat split; try tauto.
  intros c Hc. destruct (String.eqb (es_system e) "linux") eqn:Hl.
  - apply in_app_or in Hc as [Hc|[Hc|[]]]; auto.
  - rewrite app_nil_r in Hc. destruct Hc.
Qed.



(** [prepare] followed by [cleanup]: the rollback stack ends empty, the only
    commands issued are the restore of the defaults read before the helper
    script (or none), at most one warning is logged, and none when [pactl]
    can be started. *)
Theorem prepare_then_cleanup_restores_defaults config w s0 pactl_runs err calls0 :
  let '(rest, calls, warnings) :=
    cleanup (run_restore pactl_runs err) (ms_actions (snd (prepare config w s0))) calls0 [] in
  rest = [] /\
  (calls = calls0 \/ calls = calls0 ++ restore_linux_defaults (w_linux_defaults w)) /\
  (warnings = [] \/ pactl_runs = false /\ warnings = cleanup_warning (Some err)) /\
  (pactl_runs = true -> warnings = []).
Proof.
  destruct (prepare_actions_cases config w s0) as [H|(sink & source & Hd & H)]; rewrite H.
  - cbn. auto.
  - rewrite Hd. unfold cleanup. cbn [length cleanup_loop pop rev app].
    unfold run_restore.
    destruct (restore_linux_defaults (Some (sink, source))) as [|c cs] eqn:Hr;
      [|destruct pactl_runs]; cbn; rewrite ?app_nil_r; repeat split; auto; discriminate.
Qed.

(** Whenever [_capture_linux_defaults] returns defaults, restoring them
    issues at least one command, and every command names the captured,
    non-empty sink or source. *)
Theorem capture_then_restore_nonempty output sink source :
  capture_linux_defaults output = Some (sink, source) ->
  restore_linux_defaults (Some (sink, source)) <> [] /\
  (forall n, In (PactlSetDefaultSink n) (restore_linux_defaults (Some (sink, source))) ->
     sink = Some n /\ n <> ""%string) /\
  (forall n, In (PactlSetDefaultSource n) (restore_linux_defaults (Some (sink, source))) ->
     source = Some n /\ n <> ""%string).
Proof.
  unfold capture_linux_defaults. destruct output as [out|]; [|discriminate].
  destruct (scan_defaults out) as [sk sr].
  destruct (truthy sk || truthy sr)%bool eqn:Ht; [|discriminate].
  intros [= <- <-]. unfold restore_linux_defaults.
  destruct sk as [a|], sr as [b|]; cbn [truthy] in *;
    [destruct (String.eqb a ""%string) eqn:Ha, (String.eqb b ""%string) eqn:Hb
    |destruct (String.eqb a ""%string) eqn:Ha
    |destruct (String.eqb b ""%string) eqn:Hb
    |]; cbn in *; try discriminate;
    (split; [discriminate|split]); intros m Hm; cbn in Hm;
    repeat destruct Hm as [Hm|Hm]; try discriminate; try contradiction;
    injection Hm as <-; split; auto; apply String.eqb_neq; assumption.
Qed.

Lemma capture_then_restore_nonempty_witness :
  restore_linux_defaults
    (Some (Some "alsa_output.pci-0000_00_1f.3.analog-stereo"%string,
           Some "alsa_input.pci-0000_00_1f.3.analog-stereo"%string)) <> [].
Proof.
  apply (proj1 (capture_then_restore_nonempty
    (Some (pactl_info_text ["Server Name: PulseAudio (on PipeWire 1.0.5)"]
             " alsa_output.pci-0000_00_1f.3.analog-stereo" []
             " alsa_input.pci-0000_00_1f.3.analog-stereo" ["Cookie: 8a1c:3f2e"]))
    (Some "alsa_output.pci-0000_00_1f.3.analog-stereo"%string)
    (Some "alsa_input.pci-0000_00_1f.3.analog-stereo"%string) eq_refl)).
Defined.


Lemma line_free_eq c rest :
  line_free (String c rest) =
  if ((byte c =? 13)%nat || break1 c)%bool then false
  else match rest with
       | String c2 rest2 =>
           negb (break2 c c2) &&
           match rest2 with
           | String c3 _ => negb (break3 c c2 c3)
           | EmptyString => true
           end && line_free rest
       | EmptyString => true
       end.
Proof. reflexivity. Qed.

Lemma plain_byte c : plain c = true -> (byte c < 128)%nat /\ break1 c = false.
Proof.
  unfold plain. intros H. apply andb_true_iff in H as [H1 H2].
  apply Nat.ltb_lt in H1. apply negb_true_iff in H2. auto.
Qed.

Lemma plain_breaks c : plain c = true ->
  (byte c =? 13)%nat = false /\ break1 c = false /\
  (forall x, break2 x c = false) /\ (forall x, break2 c x = false) /\
  (forall x y, break3 x y c = false) /\ (forall x y, break3 x c y = false) /\
  (forall x y, break3 c x y = false).
Proof.
  intros H. apply plain_byte in H as [Hlt H1].
  assert (H13 : (byte c =? 13)%nat = false).
  { unfold break1 in H1. destruct (byte c =? 13)%nat; [|reflexivity].
    rewrite !orb_true_r in H1. discriminate. }
  unfold break2, break3.
  assert (Hne : forall k, (128 <= k)%nat -> (byte c =? k)%nat = false)
    by (intros k Hk; apply Nat.eqb_neq; lia).
  repeat split; auto; intros;
    rewrite ?(Hne 133%nat), ?(Hne 194%nat), ?(Hne 226%nat), ?(Hne 128%nat), ?(Hne 168%nat), ?(Hne 169%nat) by lia;
    rewrite ?andb_false_r, ?andb_false_l; reflexivity.
Qed.

(** A plain character never takes part in a line boundary: the text on
    each side of it is read independently. *)
Lemma line_free_split p c s :
  plain c = true -> line_free (p ++ String c s) = line_free p && line_free s.
Proof.
  intros Hc. pose proof (plain_breaks c Hc) as (H13 & H1 & Ha & Hb & Hx & Hy & Hz).
  induction p as [|x p IH].
  - rewrite str_app_nil, line_free_eq, H13, H1. simpl.
    destruct s as [|c2 s2]; [reflexivity|].
    rewrite Hb. destruct s2; rewrite ?Hz; reflexivity.
  - rewrite str_app_cons, (line_free_eq x (p ++ String c s)), (line_free_eq x p).
    destruct ((byte x =? 13)%nat || break1 x)%bool; [reflexivity|].
    destruct p as [|y [|z p']].
    + rewrite str_app_nil in *. rewrite IH, Ha.
      destruct s as [|c3 s3]; simpl; rewrite ?Hy; reflexivity.
    + rewrite str_app_cons, str_app_nil in *. rewrite IH, Hx.
      destruct (break2 x y); reflexivity.
    + rewrite !str_app_cons in *. rewrite IH.
      destruct (negb (break2 x y) && negb (break3 x y z)); reflexivity.
Qed.

Lemma str_app_assoc (a b c : string) : ((a ++ b) ++ c)%string = (a ++ (b ++ c))%string.
Proof. induction a as [|x a IH]; [reflexivity|]. rewrite !str_app_cons, IH. reflexivity. Qed.

Lemma line_free_plain_all p :
  forallb plain (list_ascii_of_string p) = true -> line_free p = true.
Proof.
  intros H. rewrite <- (str_app_empty_r p), (line_free_app_plain p "" H). reflexivity.
Qed.

Lemma digit_plain n : plain (ascii_of_nat (48 + n mod 10)) = true.
Proof.
  pose proof (Nat.mod_upper_bound n 10 ltac:(lia)) as Hm.
  unfold plain, break1, byte. rewrite nat_ascii_embedding by lia.
  apply andb_true_iff. split; [apply Nat.ltb_lt; lia|].
  apply negb_true_iff.
  repeat rewrite (proj2 (Nat.eqb_neq _ _)) by lia. reflexivity.
Qed.

Lemma decimal_go_plain fuel n acc :
  forallb plain (list_ascii_of_string acc) = true ->
  forallb plain (list_ascii_of_string (decimal_go fuel n acc)) = true.
Proof.
  revert n acc. induction fuel as [|f IH]; intros n acc H; [exact H|].
  cbn [decimal_go].
  assert (H' : forallb plain (list_ascii_of_string (String (ascii_of_nat (48 + n mod 10)) acc)) = true)
    by (cbn [list_ascii_of_string forallb]; rewrite digit_plain; exact H).
  destruct (n <? 10)%nat; [exact H'|]. apply IH. exact H'.
Qed.

Lemma str_nat_plain n : forallb plain (list_ascii_of_string (str_nat n)) = true.
Proof. apply decimal_go_plain. reflexivity. Qed.

Lemma str_int_plain z : forallb plain (list_ascii_of_string (str_int z)) = true.
Proof.
  unfold str_int. destruct (z <? 0); [|apply str_nat_plain].
  cbn [list_ascii_of_string forallb]. apply str_nat_plain.
Qed.

Lemma spaces_app k R : line_free (String.concat "" (repeat " "%string k) ++ R) = line_free R.
Proof.
  induction k as [|k IH]; [reflexivity|].
  destruct k as [|k].
  - apply (line_free_app_plain " "). reflexivity.
  - change (String.concat "" (repeat " "%string (Datatypes.S (Datatypes.S k))))
      with (" " ++ ("" ++ String.concat "" (repeat " "%string (Datatypes.S k))))%string.
    rewrite str_app_nil, str_app_assoc, (line_free_app_plain " ") by reflexivity. exact IH.
Qed.

Lemma pad3_app s R :
  forallb plain (list_ascii_of_string s) = true -> line_free (pad3 s ++ R) = line_free R.
Proof.
  intros Hs. unfold pad3. rewrite str_app_assoc, spaces_app. apply line_free_app_plain, Hs.
Qed.

Lemma splitlines_go_last l cur :
  line_free l = true -> splitlines_go l cur = splitlines_go "" (cur ++ l).
Proof.
  revert cur. induction l as [|c l IH]; intros cur Hl.
  - rewrite str_app_empty_r. reflexivity.
  - cbn [line_free] in Hl. destruct ((byte c =? 13)%nat || break1 c)%bool eqn:Hb; [discriminate|].
    apply orb_false_iff in Hb as [H13 H1].
    assert (Ht : match l with
                 | String c2 t2 =>
                     break2 c c2 = false /\
                     match t2 with String c3 _ => break3 c c2 c3 = false | EmptyString => True end
                 | EmptyString => True
                 end).
    { destruct l as [|c2 [|c3 l3]]; [exact I| |].
      - apply andb_true_iff in Hl as [Hl _]. apply andb_true_iff in Hl as [Hl _].
        apply negb_true_iff in Hl. split; [exact Hl|exact I].
      - apply andb_true_iff in Hl as [Hl _]. apply andb_true_iff in Hl as [Hl Hl3].
        apply negb_true_iff in Hl. apply negb_true_iff in Hl3. split; assumption. }
    rewrite (splitlines_go_plain c _ cur H13 H1 Ht).
    rewrite IH, str_app_snoc; [reflexivity|].
    destruct l as [|c2 l2]; [reflexivity|].
    apply andb_true_iff in Hl as [_ Hl]. exact Hl.
Qed.

Lemma splitlines_go_join ls t :
  Forall (fun l => line_free l = true) ls ->
  splitlines_go (join_lines ls ++ t) "" = ls ++ splitlines_go t "".
Proof.
  induction 1 as [|l ls Hl _ IH]; [reflexivity|].
  change (join_lines (l :: ls)) with (l ++ String LF (join_lines ls))%string.
  rewrite str_app_assoc, str_app_cons, splitlines_go_line by exact Hl.
  rewrite IH. reflexivity.
Qed.

Lemma nl_join_cons l ls :
  ls <> [] -> nl_join (l :: ls) = (l ++ String LF (nl_join ls))%string.
Proof. destruct ls; [contradiction|reflexivity]. Qed.

Lemma nl_join_snoc ls x : nl_join (ls ++ [x]) = (join_lines ls ++ x)%string.
Proof.
  induction ls as [|l ls IH]; [reflexivity|].
  rewrite <- app_comm_cons, nl_join_cons by (destruct ls; discriminate).
  rewrite IH.
  change (join_lines (l :: ls)) with (l ++ String LF (join_lines ls))%string.
  rewrite str_app_assoc. reflexivity.
Qed.

(** ["\n".join] and [splitlines] are inverse on lines without boundaries
    whose last one is not empty. *)
Lemma splitlines_nl_join ls x :
  Forall (fun l => line_free l = true) ls -> line_free x = true -> x <> ""%string ->
  splitlines (nl_join (ls ++ [x])) = ls ++ [x].
Proof.
  intros Hls Hx Hne. unfold splitlines. rewrite nl_join_snoc, splitlines_go_join by exact Hls.
  rewrite splitlines_go_last, str_app_nil by exact Hx. cbn -[String.eqb].
  destruct (String.eqb x "") eqn:E; [apply String.eqb_eq in E; contradiction|reflexivity].
Qed.

Lemma splitlines_nl_join_all ls :
  Forall (fun l => line_free l = true) ls -> hd ""%string (rev ls) <> ""%string ->
  splitlines (nl_join ls) = ls.
Proof.
  destruct ls as [|x ls] using rev_ind; [intros _ H; contradiction H; reflexivity|].
  rewrite rev_unit. cbn [hd]. intros Hf Hx.
  apply Forall_app in Hf as [Hls Hx']. inversion Hx'.
  apply splitlines_nl_join; assumption.
Qed.

Lemma device_line_free dt d :
  line_free (device_line dt d) = line_free (sname d) && line_free (dt d).
Proof.
  unfold device_line.
  rewrite (line_free_app_plain "  #") by reflexivity.
  rewrite pad3_app by apply str_nat_plain.
  rewrite (line_free_app_plain ": ") by reflexivity.
  change (" | " ++ str_int (inputs d) ++ "ch in / " ++ dt d)%string
    with (String " " ("| " ++ str_int (inputs d) ++ "ch in / " ++ dt d))%string.
  rewrite line_free_split by reflexivity. f_equal.
  rewrite (line_free_app_plain "| ") by reflexivity.
  rewrite (line_free_app_plain (str_int (inputs d))) by apply str_int_plain.
  apply (line_free_app_plain "ch in / "). reflexivity.
Qed.

Lemma candidate_line_free d : line_free (candidate_line d) = line_free (sname d).
Proof.
  unfold candidate_line.
  rewrite (line_free_app_plain "  #") by reflexivity.
  rewrite pad3_app by apply str_nat_plain.
  apply (line_free_app_plain ": "). reflexivity.
Qed.

Lemma bullet_free x : line_free (bullet x) = line_free x.
Proof. apply (line_free_app_plain "  - "). reflexivity. Qed.

Lemma labelled_free (label : string) c v :
  line_free label = true -> plain c = true ->
  line_free (label ++ String c v) = line_free v.
Proof. intros Hl Hc. rewrite line_free_split, Hl by exact Hc. reflexivity. Qed.

(** The text of [render_diagnostic_report] splits back, by [str.splitlines],
    into exactly the lines it was joined from, provided the free text it
    embeds (platform, mode value, device names, device-line ends, issues,
    recommendations) holds no line boundary. *)
Theorem render_report_splits_into_lines mode_value device_tail r :
  line_free (r_platform r) = true ->
  line_free (mode_value (r_mode r)) = true ->
  Forall (fun d => line_free (sname d) && line_free (device_tail d) = true) (r_input_devices r) ->
  Forall (fun d => line_free (sname d) = true) (r_loopback_candidates r) ->
  (forall d, r_configured_device r = Some d -> line_free (sname d) = true) ->
  Forall (fun x => line_free x = true) (r_issues r) ->
  Forall (fun x => line_free x = true) (r_recommendations r) ->
  splitlines (render_diagnostic_report mode_value device_tail r) =
  render_lines mode_value device_tail r.
Proof.
  intros Hp Hm Hi Hc Hd Hs Hr. unfold render_diagnostic_report.
  apply splitlines_nl_join_all.
  2:{ unfold render_lines. rewrite !rev_app_distr. cbn [rev app hd]. discriminate. }
  unfold render_lines. rewrite !Forall_app. repeat split.
  - repeat constructor.
    + change ("プラットフォーム: " ++ r_platform r)%string
        with ("プラットフォーム:" ++ String " " (r_platform r))%string.
      rewrite labelled_free by reflexivity. exact Hp.
    + change ("キャプチャモード: " ++ mode_value (r_mode r))%string
        with ("キャプチャモード:" ++ String " " (mode_value (r_mode r)))%string.
      rewrite labelled_free by reflexivity. exact Hm.
  - destruct (list_empty (r_input_devices r)); [repeat constructor|].
    apply Forall_map. refine (Forall_impl _ _ _ Hi _).
    intros d H. rewrite device_line_free. exact H.
  - destruct (r_configured_device r) as [d|] eqn:E; [|constructor].
    specialize (Hd d eq_refl). repeat constructor.
    change ("設定済みデバイス: #" ++ str_nat (index d) ++ " " ++ sname d)%string
      with ("設定済みデバイス:" ++ String " " ("#" ++ str_nat (index d) ++ " " ++ sname d))%string.
    rewrite labelled_free by reflexivity.
    rewrite (line_free_app_plain "#") by reflexivity.
    rewrite (line_free_app_plain (str_nat (index d))) by apply str_nat_plain.
    rewrite (line_free_app_plain " ") by reflexivity. exact Hd.
  - repeat constructor.
  - destruct (list_empty (r_loopback_candidates r)); [repeat constructor|].
    apply Forall_map. refine (Forall_impl _ _ _ Hc _).
    intros d H. rewrite candidate_line_free. exact H.
  - destruct (list_empty (r_issues r)); [constructor|].
    apply Forall_app. split; [repeat constructor|].
    apply Forall_map. refine (Forall_impl _ _ _ Hs _).
    intros x H. rewrite bullet_free. exact H.
  - destruct (list_empty (r_recommendations r)); [constructor|].
    apply Forall_app. split; [repeat constructor|].
    apply Forall_map. refine (Forall_impl _ _ _ Hr _).
    intros x H. rewrite bullet_free. exact H.
  - repeat constructor.
Qed.

Ltac line_cases H :=
  repeat match type of H with
  | In _ (_ ++ _) => apply in_app_or in H as [H|H]
  | In _ (map _ _) => let d := fresh "d" in apply in_map_iff in H as (d & H & ?)
  | In _ (_ :: _) => destruct H as [H|H]
  | In _ [] => destruct H
  | In _ (if ?b then _ else _) => destruct b eqn:?
  | In _ (match ?o with _ => _ end) => destruct o eqn:?
  end.

Lemma list_empty_true {A} (l : list A) : list_empty l = true <-> l = [].
Proof. destruct l; cbn; split; congruence. Qed.

Lemma list_empty_false {A} (l : list A) : list_empty l = false <-> l <> [].
Proof. destruct l; cbn; split; congruence. Qed.

(** In the rendered report, the issues header appears exactly when there are
    issues, the recommendations header exactly when there are
    recommendations, and each placeholder line exactly when its list is
    empty. *)
Theorem render_report_sections mode_value device_tail r :
  (In "[課題]"%string (render_lines mode_value device_tail r) <-> r_issues r <> []) /\
  (In "[推奨事項]"%string (render_lines mode_value device_tail r) <-> r_recommendations r <> []) /\
  (In "  (入力デバイスなし)"%string (render_lines mode_value device_tail r) <-> r_input_devices r = []) /\
  (In "  (候補なし)"%string (render_lines mode_value device_tail r) <-> r_loopback_candidates r = []).
Proof.
  unfold render_lines.
  repeat split.
  all: try (intros H; line_cases H;
            try (subst; discriminate);
            try (unfold device_line, candidate_line, bullet in *; discriminate);
            first [apply list_empty_false; assumption | apply list_empty_true; assumption]).
  all: intros Hc;
    match type of Hc with
    | ?l <> [] => destruct (list_empty l) eqn:E; [apply list_empty_true in E; contradiction|]
    | ?l = [] => rewrite (proj2 (list_empty_true l) Hc)
    end;
    rewrite !in_app_iff; cbn [In]; intuition auto.
Qed.


Lemma Forall_of_forallb {A} (f : A -> bool) (l : list A) :
  forallb f l = true -> Forall (fun x => f x = true) l.
Proof.
  induction l as [|a l IH]; cbn; intros H; [constructor|].
  apply andb_true_iff in H as [Ha Hl]. constructor; auto.
Qed.

Lemma render_report_splits_into_lines_witness :
  splitlines (render_diagnostic_report sample_mode_value sample_device_tail sample_report) =
  render_lines sample_mode_value sample_device_tail sample_report.
Proof.
  assert (H1 : line_free (r_platform sample_report) = true) by (vm_compute; reflexivity).
  assert (H2 : line_free (sample_mode_value (r_mode sample_report)) = true)
    by (vm_compute; reflexivity).
  assert (H3 : Forall (fun d => line_free (sname d) && line_free (sample_device_tail d) = true)
                 (r_input_devices sample_report))
    by (apply (Forall_of_forallb (fun d => line_free (sname d) && line_free (sample_device_tail d)));
        vm_compute; reflexivity).
  assert (H4 : Forall (fun d => line_free (sname d) = true) (r_loopback_candidates sample_report))
    by (apply (Forall_of_forallb (fun d => line_free (sname d))); vm_compute; reflexivity).
  assert (H5 : forall d, r_configured_device sample_report = Some d -> line_free (sname d) = true)
    by (intros d Hd; vm_compute in Hd; injection Hd as <-; vm_compute; reflexivity).
  assert (H6 : Forall (fun x => line_free x = true) (r_issues sample_report))
    by (apply (Forall_of_forallb line_free); vm_compute; reflexivity).
  assert (H7 : Forall (fun x => line_free x = true) (r_recommendations sample_report))
    by (apply (Forall_of_forallb line_free); vm_compute; reflexivity).
  exact (render_report_splits_into_lines sample_mode_value sample_device_tail sample_report
           H1 H2 H3 H4 H5 H6 H7).
Defined.

Lemma nth_error_listing_from index devs i :
  nth_error (listing_from index devs) i =
  option_map (listing_line (index + i)) (nth_error devs i).
Proof.
  revert index i. induction devs as [|d devs IH]; intros index [|i]; cbn; auto.
  - rewrite Nat.add_0_r. reflexivity.
  - rewrite IH. f_equal. f_equal. lia.
Qed.

Lemma pad3_width_small n : (n < 1000)%nat -> String.length (pad3 (str_nat n)) = 3%nat.
Proof.
  intros Hn.
  assert (H : forallb (fun k => (String.length (pad3 (str_nat k)) =? 3)%nat) (seq 0 1000) = true)
    by (vm_compute; reflexivity).
  apply Nat.eqb_eq. exact (proj1 (forallb_forall _ _) H n (proj2 (in_seq 1000 0 n) (conj (Nat.le_0_l n) Hn))).
Qed.

Lemma str_length_app (a b : string) : String.length (a ++ b) = (String.length a + String.length b)%nat.
Proof. induction a as [|c a IH]; [reflexivity|]. rewrite str_app_cons. cbn. rewrite IH. reflexivity. Qed.

(** [list_audio_devices] prints one line per device, in enumeration order;
    for the first thousand devices the name always starts at column 13,
    after a seven-character column reading IN, OUT or IN/OUT according to
    which channel counts are non-zero. *)
Theorem list_audio_devices_layout devs :
  length (list_audio_devices devs) = length devs /\
  forall i d, nth_error devs i = Some d -> (i < 1000)%nat ->
  exists prefix,
    nth_error (list_audio_devices devs) i =
      Some (prefix ++ ld_name d ++ "  (" ++ str_int (ld_hostapi d) ++ ")")%string /\
    String.length prefix = 13%nat /\
    prefix = (pad3 (str_nat i) ++ ": " ++
              match (ld_inputs d =? 0)%Z, (ld_outputs d =? 0)%Z with
              | false, false => "IN/OUT "
              | false, true => "IN     "
              | true, false => "OUT    "
              | true, true => "       "
              end ++ " ")%string.
Proof.
  split.
  - unfold list_audio_devices. generalize 0%nat.
    induction devs as [|d devs IH]; intros k; cbn; [reflexivity|]. rewrite IH. reflexivity.
  - intros i d Hd Hi. unfold list_audio_devices. rewrite nth_error_listing_from, Hd. cbn [option_map].
    eexists. split; [|split; [|reflexivity]].
    + unfold listing_line. rewrite Nat.add_0_l.
      unfold io_type.
      destruct (ld_inputs d =? 0), (ld_outputs d =? 0); cbn [app join_slash]; rewrite <- !str_app_assoc; reflexivity.
    + rewrite !str_length_app, pad3_width_small by exact Hi.
      destruct (ld_inputs d =? 0), (ld_outputs d =? 0); reflexivity.
Qed.
